(** * fbchat/_thread.py: thread operations over an injected session

    A shallow embedding of [src/fbchat/_thread.py].  Python values are
    embedded as the inductive [value]; exceptions are an explicit error
    type; the store of thread objects and the calls that leave the module
    (the session transport above all) are threaded through a small
    state-and-error monad [M]. *)

From Stdlib Require Import String Ascii List ZArith Bool Arith Lia.
From Stdlib Require Import DecimalString DecimalNat DecimalPos.
Import ListNotations.
Open Scope string_scope.

Set Warnings "-register-all".

(** ** Python values *)

(** The values the module handles: what a JSON decoder produces, plus
    dictionaries with any hashable key.  Tuples are embedded as lists,
    floats are left out, and a character of a [string] stands for one code
    point below 256. *)
Inductive value : Type :=
| PNone
| PBool (b : bool)
| PInt (n : Z)
| PStr (s : string)
| PList (l : list value)
| PDict (kvs : list (value * value)).

(** Exceptions.  The formatted message texts are left out; the
    [fb_error_message] keyword of [FBchatFacebookError] is kept.
    [CollaboratorError e] is an exception raised inside a call that leaves
    the module (the session transport, [_plan], [_util]); it is kept apart
    from the exceptions the module raises itself. *)
Inductive exn : Type :=
| ValueError
| NotImplementedError
| KeyError
| IndexError
| TypeError
| AttributeError
| FBchatException
| FBchatFacebookError (fb_error_message : value)
| CollaboratorError (e : value).

(** The outcome of an expression that may raise. *)
Definition res (A : Type) : Type := (exn + A)%type.

Definition Ok {A} (a : A) : res A := inr a.
Definition Raise {A} (e : exn) : res A := inl e.

Definition rbind {A B} (r : res A) (k : A -> res B) : res B :=
  match r with
  | inl e => inl e
  | inr a => k a
  end.

Declare Scope res_scope.
Delimit Scope res_scope with res.
Notation "x <~ r ; k" := (rbind r (fun x => k))
  (at level 61, r at next level, right associativity) : res_scope.

(** [bool(v)] *)
Definition truthy (v : value) : bool :=
  match v with
  | PNone => false
  | PBool b => b
  | PInt n => negb (n =? 0)%Z
  | PStr s => negb (s =? "")
  | PList l => match l with [] => false | _ => true end
  | PDict d => match d with [] => false | _ => true end
  end.

Definition int_of_bool (b : bool) : Z := if b then 1%Z else 0%Z.

(** [a == b] *)
Fixpoint py_eq (a b : value) {struct a} : bool :=
  match a, b with
  | PNone, PNone => true
  | PBool x, PBool y => Bool.eqb x y
  | PBool x, PInt n => (int_of_bool x =? n)%Z
  | PInt n, PBool y => (n =? int_of_bool y)%Z
  | PInt n, PInt m => (n =? m)%Z
  | PStr s, PStr t => (s =? t)
  | PList l, PList l' =>
      (fix eq_list (l l' : list value) : bool :=
         match l, l' with
         | [], [] => true
         | x :: l, y :: l' => py_eq x y && eq_list l l'
         | _, _ => false
         end) l l'
  | PDict d, PDict d' =>
      (length d =? length d')%nat &&
      (fix all_in (d : list (value * value)) : bool :=
         match d with
         | [] => true
         | (k, v) :: d =>
             (fix find (d' : list (value * value)) : bool :=
                match d' with
                | [] => false
                | (k', v') :: d' => if py_eq k k' then py_eq v v' else find d'
                end) d'
             && all_in d
         end) d
  | _, _ => false
  end.

(** Only [None], booleans, integers and strings can be dictionary keys. *)
Definition hashable (v : value) : bool :=
  match v with
  | PList _ | PDict _ => false
  | _ => true
  end.

(** ** Strings *)

Fixpoint drop_chars (n : nat) (s : string) : string :=
  match n, s with
  | O, _ => s
  | S _, EmptyString => EmptyString
  | S n, String _ s => drop_chars n s
  end.

(** [str.lower] on one code point below 256: the ASCII capitals and the
    Latin-1 capitals (all of U+00C0..U+00DE but the multiplication sign). *)
Definition lower_char (c : ascii) : ascii :=
  let n := nat_of_ascii c in
  if (((65 <=? n) && (n <=? 90)) ||
      ((192 <=? n) && (n <=? 222) && negb (n =? 215)))%nat
  then ascii_of_nat (n + 32)
  else c.

Fixpoint lower (s : string) : string :=
  match s with
  | EmptyString => EmptyString
  | String c s => String (lower_char c) (lower s)
  end.

(** Upper-casing of the ASCII letters, which is [str.upper] on an ASCII
    string. *)
Definition ascii_upper_char (c : ascii) : ascii :=
  let n := nat_of_ascii c in
  if ((97 <=? n) && (n <=? 122))%nat then ascii_of_nat (n - 32) else c.

Fixpoint ascii_upper (s : string) : string :=
  match s with
  | EmptyString => EmptyString
  | String c s => String (ascii_upper_char c) (ascii_upper s)
  end.

(** ** Colors *)

Definition DEFAULT_COLOR : string := "#0084ff".

Definition SETABLE_COLORS : list string :=
  [ DEFAULT_COLOR;
    "#44bec7";
    "#ffc300";
    "#fa3c4c";
    "#d696bb";
    "#6699cc";
    "#13cf13";
    "#ff7e29";
    "#e68585";
    "#7646ff";
    "#20cef5";
    "#67b868";
    "#d4a88c";
    "#ff5ca1";
    "#a695c7";
    "#ff7ca8";
    "#1adb5b";
    "#f01d6a";
    "#ff9c19";
    "#0edcde" ].

(** [inp[2:].lower()]: a string is sliced and lowered; a list is sliced and
    then has no [lower]; slicing a number is a type error, and so is
    slicing a dictionary (a slice is no key before Python 3.12). *)
Definition slice2_lower (inp : value) : res string :=
  match inp with
  | PStr s => Ok (lower (drop_chars 2 s))
  | PList _ => Raise AttributeError
  | _ => Raise TypeError
  end.

(** [ThreadABC._parse_color] *)
Definition _parse_color (inp : value) : res string :=
  if negb (truthy inp) then Ok DEFAULT_COLOR
  else (s <~ slice2_lower inp ; Ok ("#" ++ s))%res.

(** The server's encoding of a color: an opaque alpha byte, then the hex
    digits in upper case. *)
Definition server_color (c : string) : string :=
  "FF" ++ ascii_upper (drop_chars 1 c).

(** ** Builtins on values *)

Definition str_nat (n : nat) : string := NilEmpty.string_of_uint (Nat.to_uint n).
Definition str_int (n : Z) : string := NilEmpty.string_of_int (Z.to_int n).

(** Position of index [n] in a sequence of length [len]; a negative index
    counts from the end. *)
Definition index_of (len : nat) (n : Z) : option nat :=
  let m := if (n <? 0)%Z then (n + Z.of_nat len)%Z else n in
  if ((0 <=? m) && (m <? Z.of_nat len))%Z then Some (Z.to_nat m) else None.

Fixpoint dict_lookup (k : value) (d : list (value * value)) : option value :=
  match d with
  | [] => None
  | (k', v) :: d => if py_eq k k' then Some v else dict_lookup k d
  end.

(** The integer an index stands for; booleans are integers. *)
Definition int_index (k : value) : option Z :=
  match k with
  | PInt n => Some n
  | PBool b => Some (int_of_bool b)
  | _ => None
  end.

Definition seq_getitem {A} (get : nat -> option A) (len : nat) (k : value)
  : res A :=
  match int_index k with
  | None => Raise TypeError
  | Some n =>
      match index_of len n with
      | None => Raise IndexError
      | Some i =>
          match get i with
          | Some x => Ok x
          | None => Raise IndexError
          end
      end
  end.

(** [v[k]] *)
Definition getitem (v k : value) : res value :=
  match v with
  | PDict d =>
      if hashable k then
        match dict_lookup k d with
        | Some x => Ok x
        | None => Raise KeyError
        end
      else Raise TypeError
  | PList l => seq_getitem (nth_error l) (length l) k
  | PStr s =>
      seq_getitem (fun i => option_map (fun c => PStr (String c "")) (String.get i s))
                  (String.length s) k
  | _ => Raise TypeError
  end.

(** [v.get(k, default)]; only dictionaries have the method. *)
Definition py_get (v : value) (k : string) (default : value) : res value :=
  match v with
  | PDict d =>
      match dict_lookup (PStr k) d with
      | Some x => Ok x
      | None => Ok default
      end
  | _ => Raise AttributeError
  end.

Fixpoint chars (s : string) : list value :=
  match s with
  | EmptyString => []
  | String c s => PStr (String c "") :: chars s
  end.

(** The items a [for] loop or an unpacking sees. *)
Definition py_iter (v : value) : res (list value) :=
  match v with
  | PList l => Ok l
  | PStr s => Ok (chars s)
  | PDict d => Ok (map fst d)
  | _ => Raise TypeError
  end.

(** [len(v)] *)
Definition py_len (v : value) : res nat :=
  match v with
  | PList l => Ok (length l)
  | PStr s => Ok (String.length s)
  | PDict d => Ok (length d)
  | _ => Raise TypeError
  end.

(** [(j,) = v] *)
Definition unpack1 (v : value) : res value :=
  (l <~ py_iter v ;
   match l with
   | [j] => Ok j
   | _ => Raise ValueError
   end)%res.

(** [a, b = v] *)
Definition unpack2 (v : value) : res (value * value) :=
  (l <~ py_iter v ;
   match l with
   | [a; b] => Ok (a, b)
   | _ => Raise ValueError
   end)%res.

(** A dictionary with string keys, in insertion order. *)
Definition strdict : Type := list (string * value).

(** [d[k] = v]: an existing key keeps its place. *)
Fixpoint setitem (d : strdict) (k : string) (v : value) : strdict :=
  match d with
  | [] => [(k, v)]
  | (k', v') :: d =>
      if k =? k' then (k', v) :: d else (k', v') :: setitem d k v
  end.

(** [d.update(e)] *)
Definition update (d e : strdict) : strdict :=
  fold_left (fun d kv => setitem d (fst kv) (snd kv)) e d.

Definition has_key (d : strdict) (k : string) : bool :=
  existsb (fun kv => k =? fst kv) d.

Fixpoint lookup (d : strdict) (k : string) : option value :=
  match d with
  | [] => None
  | (k', v) :: d => if k =? k' then Some v else lookup d k
  end.

(** [d[k] = v] on a dictionary with keys of any hashable kind. *)
Fixpoint dict_insert (d : list (value * value)) (k v : value)
  : list (value * value) :=
  match d with
  | [] => [(k, v)]
  | (k', v') :: d =>
      if py_eq k k' then (k', v) :: d else (k', v') :: dict_insert d k v
  end.

Definition dict_setitem (d : list (value * value)) (k v : value)
  : res (list (value * value)) :=
  if hashable k then Ok (dict_insert d k v) else Raise TypeError.

Fixpoint dict_remove (d : list (value * value)) (k : value)
  : list (value * value) :=
  match d with
  | [] => []
  | (k', v') :: d => if py_eq k k' then d else (k', v') :: dict_remove d k
  end.

Fixpoint remove_nth {A} (i : nat) (l : list A) : list A :=
  match i, l with
  | _, [] => []
  | O, _ :: l => l
  | S i, x :: l => x :: remove_nth i l
  end.

(** The container left by [del v[k]]. *)
Definition delitem (v k : value) : res value :=
  match v with
  | PDict d =>
      if hashable k then
        match dict_lookup k d with
        | Some _ => Ok (PDict (dict_remove d k))
        | None => Raise KeyError
        end
      else Raise TypeError
  | PList l =>
      match int_index k with
      | None => Raise TypeError
      | Some n =>
          match index_of (length l) n with
          | Some i => Ok (PList (remove_nth i l))
          | None => Raise IndexError
          end
      end
  | _ => Raise TypeError
  end.

(** The dictionary [d] with the value under an existing key [k]
    replaced. *)
Definition dict_replace (v : value) (k : string) (x : value) : value :=
  match v with
  | PDict d => PDict (dict_insert d (PStr k) x)
  | _ => v
  end.

(** ** [str] and [repr] *)

Definition dquote : ascii := ascii_of_nat 34.
Definition squote : ascii := ascii_of_nat 39.
Definition backslash : ascii := ascii_of_nat 92.

Fixpoint contains_char (c : ascii) (s : string) : bool :=
  match s with
  | EmptyString => false
  | String a s => Ascii.eqb a c || contains_char c s
  end.

Definition hex_digit (n : nat) : ascii :=
  if (n <? 10)%nat then ascii_of_nat (48 + n) else ascii_of_nat (87 + n).

(** Code points below 256 that [repr] writes as an escape: the control
    characters, the no-break space and the soft hyphen. *)
Definition unprintable (n : nat) : bool :=
  ((n <? 32) || ((127 <=? n) && (n <=? 160)) || (n =? 173))%nat.

Definition repr_char (quote c : ascii) : string :=
  let n := nat_of_ascii c in
  if Ascii.eqb c quote || Ascii.eqb c backslash then String backslash (String c "")
  else if (n =? 9)%nat then String backslash "t"
  else if (n =? 10)%nat then String backslash "n"
  else if (n =? 13)%nat then String backslash "r"
  else if unprintable n
       then String backslash
              (String "x" (String (hex_digit (n / 16)) (String (hex_digit (n mod 16)) "")))
  else String c "".

Fixpoint repr_chars (quote : ascii) (s : string) : string :=
  match s with
  | EmptyString => EmptyString
  | String c s => repr_char quote c ++ repr_chars quote s
  end.

Definition repr_str (s : string) : string :=
  let quote :=
    if contains_char squote s && negb (contains_char dquote s)
    then dquote else squote in
  String quote (repr_chars quote s ++ String quote "").

Fixpoint join (sep : string) (l : list string) : string :=
  match l with
  | [] => ""
  | [x] => x
  | x :: l => x ++ sep ++ join sep l
  end.

(** [repr(v)] *)
Fixpoint py_repr (v : value) : string :=
  match v with
  | PNone => "None"
  | PBool b => if b then "True" else "False"
  | PInt n => str_int n
  | PStr s => repr_str s
  | PList l => "[" ++ join ", " (map py_repr l) ++ "]"
  | PDict d =>
      "{" ++ join ", " (map (fun kv => py_repr (fst kv) ++ ": " ++ py_repr (snd kv)) d)
          ++ "}"
  end.

(** [str(v)] *)
Definition py_str (v : value) : string :=
  match v with
  | PStr s => s
  | _ => py_repr v
  end.

(** ** Thread objects, the outside world, and the monad *)

Definition addr : Type := nat.
Definition session_ref : Type := nat.

Inductive class : Type := ClsThread | ClsUser | ClsGroup | ClsPage.

(** The two attributes of a thread object. *)
Record thread_obj : Type := mk_thread
  { cls : class;
    session : session_ref;
    id : string }.

(** [datetime.datetime] and [datetime.timedelta] of the standard library. *)
Record datetime : Type := mk_datetime
  { year : Z; month : Z; day : Z;
    hour : Z; minute : Z; second : Z; microsecond : Z }.

Record timedelta : Type := mk_timedelta
  { days : Z; seconds : Z; microseconds : Z }.

(** What [_graphql.from_doc_id] and [_graphql.from_query_id] build. *)
Inductive query : Type :=
| from_doc_id (doc_id : string) (params : strdict)
| from_query_id (query_id : string) (params : strdict).

(** The methods of the session that the module calls. *)
Inductive request : Type :=
| _do_send_request (data : strdict)
| _payload_post (url : string) (data : strdict)
| _graphql_requests (q : query).

(** A call that leaves the module. *)
Inductive call : Type :=
| Session (s : session_ref) (r : request)
| Plan_create (thread : addr) (name : string) (at_ : datetime)
    (location_name location_id : option string)
| generate_offline_threading_id.

Inductive answer : Type :=
| Returns (v : value)
| Throws (e : value).

(** The state a method runs in: the thread objects, the answer the outside
    gives to the n-th call, the calls made so far, and the warnings
    logged. *)
Record world : Type := mk_world
  { heap : list thread_obj;
    answers : nat -> answer;
    calls : list call;
    warnings : list (value * value) }.

Definition M (A : Type) : Type := world -> res A * world.

Definition ret {A} (a : A) : M A := fun w => (Ok a, w).

Definition raise {A} (e : exn) : M A := fun w => (Raise e, w).

Definition lift {A} (r : res A) : M A := fun w => (r, w).

Definition bind {A B} (m : M A) (k : A -> M B) : M B :=
  fun w =>
    match m w with
    | (inl e, w') => (inl e, w')
    | (inr a, w') => k a w'
    end.

Notation "x <- m ;; k" := (bind m (fun x => k))
  (at level 61, m at next level, right associativity).

(** The object behind a reference; a reference to no object has no
    attributes. *)
Definition deref (a : addr) : M thread_obj :=
  fun w =>
    match nth_error (heap w) a with
    | Some o => (Ok o, w)
    | None => (Raise AttributeError, w)
    end.

(** [self.id] and [self.session] *)
Definition attr_id (self : addr) : M string := o <- deref self ;; ret (id o).
Definition attr_session (self : addr) : M session_ref :=
  o <- deref self ;; ret (session o).
Definition attr_class (self : addr) : M class := o <- deref self ;; ret (cls o).

(** A new object. *)
Definition new (o : thread_obj) : M addr :=
  fun w =>
    (Ok (length (heap w)),
     mk_world (heap w ++ [o]) (answers w) (calls w) (warnings w)).

(** A call that leaves the module is recorded and answered. *)
Definition external (c : call) : M value :=
  fun w =>
    let w' := mk_world (heap w) (answers w) (calls w ++ [c]) (warnings w) in
    match answers w (length (calls w)) with
    | Returns v => (Ok v, w')
    | Throws e => (Raise (CollaboratorError e), w')
    end.

(** [log.warning("Unknown type %r in %s", typename, data)] *)
Definition log_warning (typename data : value) : M unit :=
  fun w =>
    (Ok tt,
     mk_world (heap w) (answers w) (calls w) (warnings w ++ [(typename, data)])).

(** [self.session.<method>(...)] *)
Definition session_call (self : addr) (r : request) : M value :=
  s <- attr_session self ;; external (Session s r).

(** [Thread(session=..., id=...)]: [id] goes through the converter [str]. *)
Definition Thread_init (s : session_ref) (tid : value) : M addr :=
  new (mk_thread ClsThread s (py_str tid)).

(** Modelled from the spec: the constructors of [User], [Group] and [Page],
    whose classes are in sibling modules; like every entity they hold "a
    thread identifier and owning session". *)
Definition sibling_init (c : class) (s : session_ref) (tid : value) : M addr :=
  new (mk_thread c s (py_str tid)).

Definition construct (c : class) (s : session_ref) (tid : value) : M addr :=
  match c with
  | ClsThread => Thread_init s tid
  | _ => sibling_init c s tid
  end.

(** ** Generators *)

(** How a generator that is run to its end ends. *)
Inductive gen_end : Type :=
| Exhausted
| Raised (e : exn)
| OutOfFuel.

(** A generator run to its end: what it yielded, in order, and how it
    ended. *)
Definition gen (A : Type) : Type := world -> (list A * gen_end) * world.

Definition gen_bind {A B} (m : M B) (k : B -> gen A) : gen A :=
  fun w =>
    match m w with
    | (inl e, w') => (([], Raised e), w')
    | (inr b, w') => k b w'
    end.

Definition yield {A} (a : A) (rest : gen A) : gen A :=
  fun w => let '((ys, e), w') := rest w in ((a :: ys, e), w').

Definition stop {A} : gen A := fun w => (([], Exhausted), w).

(** ** The module *)

Section ThreadModule.

Set Default Proof Using "Type".

(** Helpers of the sibling modules [_util] and [_message], and the
    [_to_send_data] of the subclasses [User], [Group] and [Page]. *)
Variable datetime_to_millis : datetime -> Z.
Variable timedelta_to_seconds : timedelta -> Z.
Variable mimetype_to_key : string -> string.
Variable Mention : Type.
Variable Mention_to_send_data : Mention -> nat -> strdict.
Variable EmojiSize : Type.
Variable EmojiSize_name : EmojiSize -> string.
Variable subclass_to_send_data : class -> string -> strdict.

(** [self._to_send_data()]: [Thread] raises, the subclasses build the
    addressing fields. *)
Definition _to_send_data (self : addr) : M strdict :=
  o <- deref self ;;
  match cls o with
  | ClsThread => raise NotImplementedError
  | c => ret (subclass_to_send_data c (id o))
  end.

Definition user_generated_message : value :=
  PStr "ma-type:user-generated-message".

Definition wave (self : addr) (first : bool) : M value :=
  data <- _to_send_data self ;;
  let data := setitem data "action_type" user_generated_message in
  let data :=
    setitem data "lightweight_action_attachment[lwa_state]"
      (PStr (if first then "INITIATED" else "RECIPROCATED")) in
  let data := setitem data "lightweight_action_attachment[lwa_type]" (PStr "WAVE") in
  r <- session_call self (_do_send_request data) ;;
  p <- lift (unpack2 r) ;;
  ret (fst p).

(** [for i, x in enumerate(l)], the body being a dictionary update. *)
Fixpoint for_enumerate {A} (body : nat -> A -> strdict -> strdict)
  (i : nat) (l : list A) (data : strdict) : strdict :=
  match l with
  | [] => data
  | x :: l => for_enumerate body (S i) l (body i x data)
  end.

Definition or_empty {A} (l : option (list A)) : list A :=
  match l with
  | Some l => l
  | None => []
  end.

Definition nonempty_str (s : option string) : bool :=
  match s with
  | Some s => negb (s =? "")
  | None => false
  end.

Definition send_text (self : addr) (text : option string)
  (mentions : option (list Mention)) (files : option (list (string * string)))
  (reply_to_id : option string) : M value :=
  data <- _to_send_data self ;;
  let data := setitem data "action_type" user_generated_message in
  let data :=
    match text with
    | Some t => setitem data "body" (PStr t)
    | None => data
    end in
  let data :=
    for_enumerate (fun i mention data => update data (Mention_to_send_data mention i))
      0 (or_empty mentions) data in
  let data :=
    match or_empty files with
    | [] => data
    | _ => setitem data "has_attachment" (PBool true)
    end in
  let data :=
    for_enumerate
      (fun i (f : string * string) data =>
         setitem data (mimetype_to_key (snd f) ++ "s[" ++ str_nat i ++ "]")
           (PStr (fst f)))
      0 (or_empty files) data in
  let data :=
    if nonempty_str reply_to_id
    then setitem data "replied_to_message_id"
           (PStr (match reply_to_id with Some r => r | None => "" end))
    else data in
  session_call self (_do_send_request data).

Definition send_emoji (self : addr) (emoji : string) (size : EmojiSize) : M value :=
  data <- _to_send_data self ;;
  let data := setitem data "action_type" user_generated_message in
  let data := setitem data "body" (PStr emoji) in
  let data :=
    setitem data "tags[0]" (PStr ("hot_emoji_size:" ++ lower (EmojiSize_name size))) in
  session_call self (_do_send_request data).

Definition send_sticker (self : addr) (sticker_id : string) : M value :=
  data <- _to_send_data self ;;
  let data := setitem data "action_type" user_generated_message in
  let data := setitem data "sticker_id" (PStr sticker_id) in
  session_call self (_do_send_request data).

Definition _send_location (self : addr) (current : bool) (latitude longitude : value)
  : M value :=
  data <- _to_send_data self ;;
  let data := setitem data "action_type" user_generated_message in
  let data := setitem data "location_attachment[coordinates][latitude]" latitude in
  let data := setitem data "location_attachment[coordinates][longitude]" longitude in
  let data := setitem data "location_attachment[is_current_location]" (PBool current) in
  session_call self (_do_send_request data).

Definition send_location (self : addr) (latitude longitude : value) : M unit :=
  _ <- _send_location self true latitude longitude ;; ret tt.

Definition send_pinned_location (self : addr) (latitude longitude : value) : M unit :=
  _ <- _send_location self false latitude longitude ;; ret tt.

Definition send_files (self : addr) (files : option (list (string * string)))
  : M value :=
  send_text self None None files None.

(** [for x in l: yield f(x)] *)
Fixpoint yield_each {A} (f : value -> res A) (l : list value) : gen A :=
  match l with
  | [] => stop
  | x :: l => gen_bind (lift (f x)) (fun a => yield a (yield_each f l))
  end.

Definition search_messages (self : addr) (query : string) (offset limit : Z)
  : gen value :=
  gen_bind
    (tid <- attr_id self ;;
     let data :=
       [ ("query", PStr query);
         ("snippetOffset", PInt offset);
         ("snippetLimit", PInt limit);
         ("identifier", PStr "thread_fbid");
         ("thread_fbid", PStr tid) ] in
     j <- session_call self
            (_payload_post "/ajax/mercury/search_snippets.php?dpr=1" data) ;;
     result <- lift (s <~ getitem j (PStr "search_snippets") ;
                     getitem s (PStr query))%res ;;
     tid <- attr_id self ;;
     entry <- lift (py_get result tid PNone) ;;
     snippets <- (if truthy entry
                  then tid <- attr_id self ;;
                       lift (e <~ getitem result (PStr tid) ;
                             getitem e (PStr "snippets"))%res
                  else ret (PList [])) ;;
     lift (py_iter snippets))
    (yield_each (fun snippet => getitem snippet (PStr "message_id"))).

(** What [_message.MessageData._from_graphql] builds. *)
Inductive message : Type :=
| MessageData_from_graphql (thread : addr) (message read_receipts : value).

Definition is_none (v : value) : bool :=
  match v with
  | PNone => true
  | _ => false
  end.

Definition fetch_messages (self : addr) (limit : Z) (before : option datetime)
  : M (list message) :=
  tid <- attr_id self ;;
  let params :=
    [ ("id", PStr tid);
      ("message_limit", PInt limit);
      ("load_messages", PBool true);
      ("load_read_receipts", PBool true);
      ("before", match before with
                 | Some b => PInt (datetime_to_millis b)
                 | None => PNone
                 end) ] in
  r <- session_call self (_graphql_requests (from_doc_id "1860982147341344" params)) ;;
  j <- lift (unpack1 r) ;;
  mt <- lift (py_get j "message_thread" PNone) ;;
  if is_none mt then
    _ <- attr_id self ;;
    raise FBchatException
  else
    read_receipts <- lift (mt <~ getitem j (PStr "message_thread") ;
                           rr <~ getitem mt (PStr "read_receipts") ;
                           getitem rr (PStr "nodes"))%res ;;
    c <- attr_class self ;;
    s <- attr_session self ;;
    tid <- attr_id self ;;
    thread <- construct c s (PStr tid) ;;
    nodes <- lift (mt <~ getitem j (PStr "message_thread") ;
                   ms <~ getitem mt (PStr "messages") ;
                   ns <~ getitem ms (PStr "nodes") ;
                   py_iter ns)%res ;;
    let messages :=
      map (fun m => MessageData_from_graphql thread m read_receipts) nodes in
    ret (rev messages).

(** What [_file.ImageAttachment._from_list], [_file.VideoAttachment._from_list]
    and [_attachment.Attachment] build. *)
Inductive attachment : Type :=
| ImageAttachment_from_list (i : value)
| VideoAttachment_from_list (i : value)
| Attachment (id : value).

(** [j[self.id]["message_shared_media"]] *)
Definition shared_media (j : value) (tid : string) : res value :=
  (x <~ getitem j (PStr tid) ; getitem x (PStr "message_shared_media"))%res.

(** The attachment yielded for the edge [i]. *)
Definition attachment_of (i : value) : res attachment :=
  (node <~ getitem i (PStr "node") ;
   t <~ py_get node "__typename" PNone ;
   if py_eq t (PStr "MessageImage") then Ok (ImageAttachment_from_list i)
   else
     node <~ getitem i (PStr "node") ;
     t <~ py_get node "__typename" PNone ;
     if py_eq t (PStr "MessageVideo") then Ok (VideoAttachment_from_list i)
     else
       node <~ getitem i (PStr "node") ;
       a <~ py_get node "legacy_attachment_id" PNone ;
       Ok (Attachment a))%res.

(** [del j[self.id]["message_shared_media"]["edges"][0]]: the response
    object is changed in place. *)
Definition del_first_edge (j : value) (tid : string) : res value :=
  (x <~ getitem j (PStr tid) ;
   m <~ getitem x (PStr "message_shared_media") ;
   e <~ getitem m (PStr "edges") ;
   e' <~ delitem e (PInt 0) ;
   Ok (dict_replace j tid
         (dict_replace x "message_shared_media" (dict_replace m "edges" e'))))%res.

(** One pass through the body of [while True]. *)
Inductive pass : Type :=
| Yield (a : attachment) (j : value)
| Continue (data : strdict) (j : value)
| Break.

Definition images_query (data : strdict) : request :=
  _graphql_requests (from_query_id "515216185516880" data).

Definition fetch_images_pass (self : addr) (data : strdict) (j : value) : M pass :=
  tid <- attr_id self ;;
  match (m <~ shared_media j tid ;
         e <~ getitem m (PStr "edges") ;
         getitem e (PInt 0))%res with
  | inl IndexError =>
      tid <- attr_id self ;;
      more <- lift (m <~ shared_media j tid ;
                    p <~ getitem m (PStr "page_info") ;
                    py_get p "has_next_page" PNone)%res ;;
      if truthy more then
        tid <- attr_id self ;;
        cursor <- lift (m <~ shared_media j tid ;
                        p <~ getitem m (PStr "page_info") ;
                        py_get p "end_cursor" PNone)%res ;;
        let data := setitem data "after" cursor in
        r <- session_call self (images_query data) ;;
        j <- lift (unpack1 r) ;;
        ret (Continue data j)
      else ret Break
  | inl e => raise e
  | inr i =>
      a <- lift (attachment_of i) ;;
      tid <- attr_id self ;;
      j <- lift (del_first_edge j tid) ;;
      ret (Yield a j)
  end.

(** The loop, one unit of fuel for each pass. *)
Fixpoint fetch_images_loop (fuel : nat) (self : addr) (data : strdict) (j : value)
  : gen attachment :=
  match fuel with
  | O => fun w => (([], OutOfFuel), w)
  | S fuel =>
      gen_bind (fetch_images_pass self data j)
        (fun p =>
           match p with
           | Yield a j => yield a (fetch_images_loop fuel self data j)
           | Continue data j => fetch_images_loop fuel self data j
           | Break => stop
           end)
  end.

Definition fetch_images (fuel : nat) (self : addr) : gen attachment :=
  gen_bind
    (tid <- attr_id self ;;
     let data := [("id", PStr tid); ("first", PInt 48)] in
     r <- session_call self (images_query data) ;;
     j <- lift (unpack1 r) ;;
     ret (data, j))
    (fun dj => fetch_images_loop fuel self (fst dj) (snd dj)).

Definition set_nickname (self : addr) (user_id nickname : string) : M unit :=
  tid <- attr_id self ;;
  let data :=
    [ ("nickname", PStr nickname);
      ("participant_id", PStr user_id);
      ("thread_or_other_fbid", PStr tid) ] in
  _ <- session_call self
         (_payload_post "/messaging/save_thread_nickname/?source=thread_settings&dpr=1"
            data) ;;
  ret tt.

(** [color in SETABLE_COLORS] *)
Definition in_tuple (color : string) (t : list string) : bool :=
  existsb (String.eqb color) t.

Definition set_color (self : addr) (color : string) : M unit :=
  if negb (in_tuple color SETABLE_COLORS) then raise ValueError
  else
    let color := if color =? DEFAULT_COLOR then "" else color in
    tid <- attr_id self ;;
    let data := [("color_choice", PStr color); ("thread_or_other_fbid", PStr tid)] in
    _ <- session_call self
           (_payload_post "/messaging/save_thread_color/?source=thread_settings&dpr=1"
              data) ;;
    ret tt.

Definition set_emoji (self : addr) (emoji : string) : M unit :=
  tid <- attr_id self ;;
  let data := [("emoji_choice", PStr emoji); ("thread_or_other_fbid", PStr tid)] in
  _ <- session_call self
         (_payload_post "/messaging/save_thread_emoji/?source=thread_settings&dpr=1"
            data) ;;
  ret tt.

Definition forward_attachment (self : addr) (attachment_id : value) : M unit :=
  otid <- external generate_offline_threading_id ;;
  tid <- attr_id self ;;
  let data :=
    setitem [("attachment_id", attachment_id)]
      ("recipient_map[" ++ py_str otid ++ "]") (PStr tid) in
  j <- session_call self (_payload_post "/mercury/attachments/forward/" data) ;;
  success <- lift (py_get j "success" PNone) ;;
  if negb (truthy success) then
    err <- lift (getitem j (PStr "error")) ;;
    raise (FBchatFacebookError err)
  else ret tt.

Definition _set_typing (self : addr) (typing : bool) : M unit :=
  tid <- attr_id self ;;
  let data :=
    [ ("typ", PStr (if typing then "1" else "0"));
      ("thread", PStr tid);
      ("source", PStr "mercury-chat") ] in
  _ <- session_call self (_payload_post "/ajax/messaging/typ.php" data) ;;
  ret tt.

Definition start_typing (self : addr) : M unit := _set_typing self true.

Definition stop_typing (self : addr) : M unit := _set_typing self false.

Definition create_plan (self : addr) (name : string) (at_ : datetime)
  (location_name location_id : option string) : M value :=
  external (Plan_create self name at_ location_name location_id).

(** The loop over [enumerate(options.items())]. *)
Definition poll_options (options : list (string * bool)) (data : strdict) : strdict :=
  for_enumerate
    (fun i (o : string * bool) data =>
       let data := setitem data ("option_text_array[" ++ str_nat i ++ "]") (PStr (fst o)) in
       setitem data ("option_is_selected_array[" ++ str_nat i ++ "]")
         (PStr (if snd o then "1" else "0")))
    0 options data.

Definition create_poll (self : addr) (question : string)
  (options : list (string * bool)) : M unit :=
  tid <- attr_id self ;;
  let data := [("question_text", PStr question); ("target_id", PStr tid)] in
  let data := poll_options options data in
  j <- session_call self
         (_payload_post "/messaging/group_polling/create_poll/?dpr=1" data) ;;
  status <- lift (py_get j "status" PNone) ;;
  if negb (py_eq status (PStr "success")) then
    _ <- lift (py_get j "errorTitle" PNone) ;;
    msg <- lift (py_get j "errorMessage" PNone) ;;
    raise (FBchatFacebookError msg)
  else ret tt.

Definition mute (self : addr) (duration : option timedelta) : M unit :=
  let setting :=
    match duration with
    | None => "-1"
    | Some d => str_int (timedelta_to_seconds d)
    end in
  tid <- attr_id self ;;
  let data := [("mute_settings", PStr setting); ("thread_fbid", PStr tid)] in
  _ <- session_call self
         (_payload_post "/ajax/mercury/change_mute_thread.php?dpr=1" data) ;;
  ret tt.

(** [datetime.timedelta(0)] *)
Definition timedelta_0 : timedelta := mk_timedelta 0 0 0.

Definition unmute (self : addr) : M unit := mute self (Some timedelta_0).

Definition _mute_reactions (self : addr) (mode : bool) : M unit :=
  tid <- attr_id self ;;
  let data :=
    [ ("reactions_mute_mode", PStr (if mode then "1" else "0"));
      ("thread_fbid", PStr tid) ] in
  _ <- session_call self
         (_payload_post "/ajax/mercury/change_reactions_mute_thread/?dpr=1" data) ;;
  ret tt.

Definition mute_reactions (self : addr) : M unit := _mute_reactions self true.

Definition unmute_reactions (self : addr) : M unit := _mute_reactions self false.

Definition _mute_mentions (self : addr) (mode : bool) : M unit :=
  tid <- attr_id self ;;
  let data :=
    [ ("mentions_mute_mode", PStr (if mode then "1" else "0"));
      ("thread_fbid", PStr tid) ] in
  _ <- session_call self
         (_payload_post "/ajax/mercury/change_mentions_mute_thread/?dpr=1" data) ;;
  ret tt.

Definition mute_mentions (self : addr) : M unit := _mute_mentions self true.

Definition unmute_mentions (self : addr) : M unit := _mute_mentions self false.

Definition mark_as_spam (self : addr) : M unit :=
  tid <- attr_id self ;;
  let data := [("id", PStr tid)] in
  _ <- session_call self (_payload_post "/ajax/mercury/mark_spam.php?dpr=1" data) ;;
  ret tt.

Definition _forced_fetch (self : addr) (message_id : string) : M value :=
  tid <- attr_id self ;;
  let params :=
    [ ("thread_and_message_id",
       PDict [ (PStr "thread_id", PStr tid); (PStr "message_id", PStr message_id) ]) ] in
  r <- session_call self (_graphql_requests (from_doc_id "1768656253222505" params)) ;;
  lift (unpack1 r).

Definition default_customization : strdict :=
  [("emoji", PNone); ("color", PStr DEFAULT_COLOR)].

(** The test that sends [_parse_customization_info] down its group
    branch. *)
Definition is_group (data : value) : res bool :=
  (t <~ py_get data "thread_type" PNone ;
   if py_eq t (PStr "GROUP") then Ok true
   else
     g <~ py_get data "is_group_thread" PNone ;
     if truthy g then Ok true
     else
       key <~ py_get data "thread_key" (PDict []) ;
       fbid <~ py_get key "thread_fbid" PNone ;
       Ok (truthy fbid))%res.

(** The loop that fills [rtn["nicknames"]]. *)
Fixpoint nicknames_loop (ks : list value) (nicknames : list (value * value))
  : res (list (value * value)) :=
  match ks with
  | [] => Ok nicknames
  | k :: ks =>
      (nickname <~ py_get k "nickname" PNone ;
       pid <~ getitem k (PStr "participant_id") ;
       nicknames <~ dict_setitem nicknames pid nickname ;
       nicknames_loop ks nicknames)%res
  end.

(** The key under which the nickname of [entry] is stored. *)
Definition nickname_key (entry user_id : value) : res string :=
  (pid <~ py_get entry "participant_id" PNone ;
   Ok (if py_eq pid user_id then "nickname" else "own_nickname"))%res.

Definition store_nickname (rtn : strdict) (entry user_id : value) : res strdict :=
  (k <~ nickname_key entry user_id ;
   nickname <~ py_get entry "nickname" PNone ;
   Ok (setitem rtn k nickname))%res.

(** [data.get("thread_key", {}).get("other_user_id") or data.get("id")] *)
Definition other_user_id (data : value) : res value :=
  (key <~ py_get data "thread_key" (PDict []) ;
   other <~ py_get key "other_user_id" PNone ;
   if truthy other then Ok other else py_get data "id" PNone)%res.

(** [if len(pc) > n: ... pc[n] ...] *)
Definition store_nth_nickname (n : nat) (pc user_id : value) (rtn : strdict)
  : res strdict :=
  (len <~ py_len pc ;
   if (n <? len)%nat then
     entry <~ getitem pc (PInt (Z.of_nat n)) ;
     store_nickname rtn entry user_id
   else Ok rtn)%res.

Definition _parse_customization_info (data : value) : res strdict :=
  if negb (truthy data) then Ok default_customization
  else
    (ci <~ py_get data "customization_info" PNone ;
     if negb (truthy ci) then Ok default_customization
     else
       info <~ getitem data (PStr "customization_info") ;
       emoji <~ py_get info "emoji" PNone ;
       bubble <~ py_get info "outgoing_bubble_color" PNone ;
       color <~ _parse_color bubble ;
       let rtn := [("emoji", emoji); ("color", PStr color)] in
       group <~ is_group data ;
       if group then
         pcs <~ py_get info "participant_customizations" (PList []) ;
         ks <~ py_iter pcs ;
         nicknames <~ nicknames_loop ks [] ;
         Ok (setitem rtn "nicknames" (PDict nicknames))
       else
         pcs <~ py_get info "participant_customizations" PNone ;
         if truthy pcs then
           user_id <~ other_user_id data ;
           pc <~ getitem info (PStr "participant_customizations") ;
           rtn <~ store_nth_nickname 0 pc user_id rtn ;
           store_nth_nickname 1 pc user_id rtn
         else Ok rtn)%res.

(** The loop of [_parse_participants] over [data["nodes"]]. *)
Fixpoint participants_loop (s : session_ref) (data : value) (nodes : list value)
  : gen addr :=
  match nodes with
  | [] => stop
  | node :: nodes =>
      gen_bind
        (lift (actor <~ getitem node (PStr "messaging_actor") ;
               typename <~ getitem actor (PStr "__typename") ;
               thread_id <~ getitem actor (PStr "id") ;
               Ok (typename, thread_id))%res)
        (fun tt =>
           let typename := fst tt in
           let thread_id := snd tt in
           let made c :=
             gen_bind (construct c s thread_id)
               (fun a => yield a (participants_loop s data nodes)) in
           if py_eq typename (PStr "User") then made ClsUser
           else if py_eq typename (PStr "MessageThread") then made ClsGroup
           else if py_eq typename (PStr "Page") then made ClsPage
           else if py_eq typename (PStr "Group") then participants_loop s data nodes
           else gen_bind (log_warning typename data)
                  (fun _ => participants_loop s data nodes))
  end.

Definition _parse_participants (s : session_ref) (data : value) : gen addr :=
  gen_bind (lift (ns <~ getitem data (PStr "nodes") ; py_iter ns)%res)
    (participants_loop s data).

(** ** Every operation, as a change of the world *)

Inductive operation : Type :=
| op_wave (first : bool)
| op_send_text (text : option string) (mentions : option (list Mention))
    (files : option (list (string * string))) (reply_to_id : option string)
| op_send_emoji (emoji : string) (size : EmojiSize)
| op_send_sticker (sticker_id : string)
| op_send_location (latitude longitude : value)
| op_send_pinned_location (latitude longitude : value)
| op_send_files (files : option (list (string * string)))
| op_search_messages (query : string) (offset limit : Z)
| op_fetch_messages (limit : Z) (before : option datetime)
| op_fetch_images (fuel : nat)
| op_set_nickname (user_id nickname : string)
| op_set_color (color : string)
| op_set_emoji (emoji : string)
| op_forward_attachment (attachment_id : value)
| op_start_typing
| op_stop_typing
| op_create_plan (name : string) (at_ : datetime)
    (location_name location_id : option string)
| op_create_poll (question : string) (options : list (string * bool))
| op_mute (duration : option timedelta)
| op_unmute
| op_mute_reactions
| op_unmute_reactions
| op_mute_mentions
| op_unmute_mentions
| op_mark_as_spam
| op_forced_fetch (message_id : string)
| op_to_send_data
| op_parse_color (inp : value)
| op_parse_customization_info (data : value)
| op_parse_participants (s : session_ref) (data : value).

Definition after {A} (m : world -> A * world) (w : world) : world := snd (m w).

(** The world that the operation leaves when called on the object
    [self]. *)
Definition run (op : operation) (self : addr) : world -> world :=
  match op with
  | op_wave first => after (wave self first)
  | op_send_text text mentions files reply_to_id =>
      after (send_text self text mentions files reply_to_id)
  | op_send_emoji emoji size => after (send_emoji self emoji size)
  | op_send_sticker sticker_id => after (send_sticker self sticker_id)
  | op_send_location latitude longitude => after (send_location self latitude longitude)
  | op_send_pinned_location latitude longitude =>
      after (send_pinned_location self latitude longitude)
  | op_send_files files => after (send_files self files)
  | op_search_messages query offset limit =>
      after (search_messages self query offset limit)
  | op_fetch_messages limit before => after (fetch_messages self limit before)
  | op_fetch_images fuel => after (fetch_images fuel self)
  | op_set_nickname user_id nickname => after (set_nickname self user_id nickname)
  | op_set_color color => after (set_color self color)
  | op_set_emoji emoji => after (set_emoji self emoji)
  | op_forward_attachment attachment_id => after (forward_attachment self attachment_id)
  | op_start_typing => after (start_typing self)
  | op_stop_typing => after (stop_typing self)
  | op_create_plan name at_ location_name location_id =>
      after (create_plan self name at_ location_name location_id)
  | op_create_poll question options => after (create_poll self question options)
  | op_mute duration => after (mute self duration)
  | op_unmute => after (unmute self)
  | op_mute_reactions => after (mute_reactions self)
  | op_unmute_reactions => after (unmute_reactions self)
  | op_mute_mentions => after (mute_mentions self)
  | op_unmute_mentions => after (unmute_mentions self)
  | op_mark_as_spam => after (mark_as_spam self)
  | op_forced_fetch message_id => after (_forced_fetch self message_id)
  | op_to_send_data => after (_to_send_data self)
  | op_parse_color inp => after (lift (_parse_color inp))
  | op_parse_customization_info data => after (lift (_parse_customization_info data))
  | op_parse_participants s data => after (_parse_participants s data)
  end.

(** ** The vocabulary of the properties *)

(** The world after one more call. *)
Definition called (c : call) (w : world) : world :=
  mk_world (heap w) (answers w) (calls w ++ [c]) (warnings w).

(** A computation, or a generator, that leaves the world as it was. *)
Definition silent {A} (m : M A) : Prop := forall w, snd (m w) = w.

Definition gsilent {A} (g : gen A) : Prop := forall w, snd (g w) = w.

(** The computation leaves every thread object as it is; it may add new
    ones. *)
Definition keeps {A} (m : world -> A * world) : Prop :=
  forall w, exists l, heap (snd (m w)) = (heap w ++ l)%list.

(** The value of a field of a dictionary, [None] when it is missing. *)
Definition field (d : list (value * value)) (k : string) : value :=
  match dict_lookup (PStr k) d with
  | Some v => v
  | None => PNone
  end.

(** The endpoints. *)
Definition save_thread_color : string :=
  "/messaging/save_thread_color/?source=thread_settings&dpr=1".

Definition change_mute_thread : string := "/ajax/mercury/change_mute_thread.php?dpr=1".

Definition create_poll_url : string := "/messaging/group_polling/create_poll/?dpr=1".

Definition search_snippets : string := "/ajax/mercury/search_snippets.php?dpr=1".

(** The payload of [mute] for the setting [s] on the thread [tid]. *)
Definition mute_payload (s tid : string) : strdict :=
  [("mute_settings", PStr s); ("thread_fbid", PStr tid)].

(** The keys of the i-th option of a poll. *)
Definition option_text (i : nat) : string := "option_text_array[" ++ str_nat i ++ "]".

Definition option_is_selected (i : nat) : string :=
  "option_is_selected_array[" ++ str_nat i ++ "]".

(** The option fields in the words of the specification: for the i-th
    option its text and then "1" or "0". *)
Fixpoint poll_fields (i : nat) (options : list (string * bool)) : strdict :=
  match options with
  | [] => []
  | (text, vote) :: options =>
      (option_text i, PStr text)
        :: (option_is_selected i, PStr (if vote then "1" else "0"))
        :: poll_fields (S i) options
  end.

(** The keys not yet used when the loop reaches the option [i]. *)
Definition fresh_from (i : nat) (d : strdict) : Prop :=
  forall n, i <= n ->
    ~ In (option_text n) (map fst d) /\ ~ In (option_is_selected n) (map fst d).

(** The response [j] holds, for the thread [tid], a page of shared media
    with the edges [es] and the page information [info]. *)
Definition holds (j : value) (tid : string) (es : list value)
  (info : list (value * value)) : Prop :=
  exists m,
    shared_media j tid = Ok m /\
    getitem m (PStr "edges") = Ok (PList es) /\
    getitem m (PStr "page_info") = Ok (PDict info).

(** A page of shared media: its edges and its page information. *)
Definition media_page : Type := (list value * list (value * value))%type.

(** After a page with the information [info], the outside answers the
    calls from the n-th on with the pages [rest], the last of which has no
    next page. *)
Fixpoint served (tid : string) (answers : nat -> answer) (n : nat)
  (info : list (value * value)) (rest : list media_page) : Prop :=
  match rest with
  | [] => truthy (field info "has_next_page") = false
  | (es, info') :: rest =>
      truthy (field info "has_next_page") = true /\
      exists r j,
        answers n = Returns r /\ unpack1 r = Ok j /\ holds j tid es info' /\
        served tid answers (S n) info' rest
  end.

(** The requests for the pages [rest] of the thread [tid]: each is the
    query of the first request with, as [after], the end cursor of the page
    before it. *)
Fixpoint follow_ups (s : session_ref) (tid : string) (info : list (value * value))
  (rest : list media_page) : list call :=
  match rest with
  | [] => []
  | (_, info') :: rest =>
      Session s
        (_graphql_requests
           (from_query_id "515216185516880"
              [ ("id", PStr tid);
                ("first", PInt 48);
                ("after", field info "end_cursor") ]))
        :: follow_ups s tid info' rest
  end.

(** The edges of a page and of the pages after it, in order. *)
Definition all_edges (es : list value) (rest : list media_page) : list value :=
  (es ++ flat_map fst rest)%list.

(** The attachments of the edges [es], one for each. *)
Definition attachments (es : list value) (atts : list attachment) : Prop :=
  Forall2 (fun e a => attachment_of e = Ok a) es atts.

(** The entries of the nicknames of a group, as the loop reads them: the
    participant id, which must be hashable, and the nickname. *)
Definition nickname_entry (k : value) (e : value * value) : Prop :=
  getitem k (PStr "participant_id") = Ok (fst e) /\
  py_get k "nickname" PNone = Ok (snd e) /\
  hashable (fst e) = true.

(** The mapping from participant id to nickname. *)
Definition nickname_map (entries : list (value * value)) : list (value * value) :=
  fold_left (fun m e => dict_insert m (fst e) (snd e)) entries [].

(** A dictionary all of whose keys are hashable. *)
Definition keyed (m : list (value * value)) : Prop :=
  Forall (fun kv => hashable (fst kv) = true) m.

(** The nickname that the last entry for the participant [p] gives. *)
Definition last_nickname (p : value) (entries : list (value * value)) : option value :=
  fold_left (fun found e => if py_eq p (fst e) then Some (snd e) else found)
    entries None.

(** The emoji and the color, with which every customization starts. *)
Definition base_customization (info : list (value * value)) (color : string) : strdict :=
  [("emoji", field info "emoji"); ("color", PStr color)].

(** The nickname of one of the two participants of a one-to-one thread,
    stored under [nickname] when it is the other user's. *)
Definition store_entry (user_id : value) (rtn : strdict) (k : list (value * value))
  : strdict :=
  setitem rtn
    (if py_eq (field k "participant_id") user_id then "nickname" else "own_nickname")
    (field k "nickname").

(** What a stored nickname leaves alone. *)
Definition same_base (r r' : strdict) : Prop :=
  lookup r' "emoji" = lookup r "emoji" /\
  lookup r' "color" = lookup r "color" /\
  has_key r' "nicknames" = has_key r "nicknames".

(** The method posts [data] to [url] once and forgets the answer: on the
    live object [o] it returns [None] whatever the session returns, and
    raises only what the session raises. *)
Definition posts_and_forgets (m : M unit) (self : addr) (o : thread_obj)
  (url : string) (data : strdict) : Prop :=
  forall w,
    nth_error (heap w) self = Some o ->
    m w
    = (match answers w (length (calls w)) with
       | Returns _ => Ok tt
       | Throws e => Raise (CollaboratorError e)
       end,
       called (Session (session o) (_payload_post url data)) w).

(** A payload of one flag, "1" or "0", and the thread. *)
Definition flag_payload (flag : string) (on : bool) (thread_key tid : string)
  : strdict :=
  [(flag, PStr (if on then "1" else "0")); (thread_key, PStr tid)].

(** The exceptions that the builtin operations on values raise. *)
Definition plain (e : exn) : bool :=
  match e with
  | KeyError | IndexError | TypeError | AttributeError | ValueError => true
  | _ => false
  end.

(** An outcome that, if it is an exception, is a plain one. *)
Definition fails_plainly {A} (r : res A) : Prop :=
  forall e, r = Raise e -> plain e = true.

(** The one request of a send method: it carries [data], which marks a
    user-generated message, has every key of the addressing fields [base],
    and satisfies [P]. *)
Definition sends {A} (m : world -> A * world) (s : session_ref) (base : strdict)
  (w : world) (P : strdict -> Prop) : Prop :=
  exists data,
    calls (snd (m w)) = (calls w ++ [Session s (_do_send_request data)])%list /\
    lookup data "action_type" = Some user_generated_message /\
    (forall k, has_key base k = true -> has_key data k = true) /\
    P data.



(** The class of the object that [_parse_participants] makes for an actor
    of the type [typename], if it makes one. *)
Definition participant_class (typename : value) : option class :=
  if py_eq typename (PStr "User") then Some ClsUser
  else if py_eq typename (PStr "MessageThread") then Some ClsGroup
  else if py_eq typename (PStr "Page") then Some ClsPage
  else None.

(** The node holds an actor with the type [fst a] and the id [snd a]. *)
Definition actor_of (node : value) (a : value * value) : Prop :=
  exists actor,
    getitem node (PStr "messaging_actor") = Ok actor /\
    getitem actor (PStr "__typename") = Ok (fst a) /\
    getitem actor (PStr "id") = Ok (snd a).

(** The objects made for the actors, in order. *)
Definition participants (s : session_ref) (actors : list (value * value))
  : list thread_obj :=
  flat_map
    (fun a =>
       match participant_class (fst a) with
       | Some c => [mk_thread c s (py_str (snd a))]
       | None => []
       end)
    actors.

(** The warnings logged for the actors: one for each type that is neither
    made into an object nor "Group". *)
Definition unknown_types (data : value) (actors : list (value * value))
  : list (value * value) :=
  flat_map
    (fun a =>
       match participant_class (fst a) with
       | Some _ => []
       | None => if py_eq (fst a) (PStr "Group") then [] else [(fst a, data)]
       end)
    actors.

(** The world after [_parse_participants] has gone through the actors. *)
Definition with_participants (s : session_ref) (data : value)
  (actors : list (value * value)) (w : world) : world :=
  mk_world (heap w ++ participants s actors) (answers w) (calls w)
    (warnings w ++ unknown_types data actors).

(** The outside answers every call with a page of shared media for [tid]
    that has no edge and announces a next page. *)
Definition endless (tid : string) (answers : nat -> answer) : Prop :=
  forall n,
    exists r j info,
      answers n = Returns r /\ unpack1 r = Ok j /\ holds j tid [] info /\
      truthy (field info "has_next_page") = true.

(** [data.get("thread_key", {})], when it is a mapping. *)
Definition thread_key_of (d : list (value * value)) : option (list (value * value)) :=
  match dict_lookup (PStr "thread_key") d with
  | None => Some []
  | Some (PDict k) => Some k
  | Some _ => None
  end.

(** What marks the data of a group: the thread type "GROUP", a truthy
    [is_group_thread], or a thread key with a truthy [thread_fbid]. *)
Definition marks_group (d : list (value * value)) : bool :=
  py_eq (field d "thread_type") (PStr "GROUP")
  || truthy (field d "is_group_thread")
  || match thread_key_of d with
     | Some k => truthy (field k "thread_fbid")
     | None => false
     end.

(** The id of the other user of a one-to-one thread with the thread key
    [k]: the [other_user_id] of the key if that is truthy, the [id] of the
    data otherwise. *)
Definition other_user (d k : list (value * value)) : value :=
  if truthy (field k "other_user_id") then field k "other_user_id" else field d "id".

(** ** Sample data *)

Definition sample_thread : thread_obj := mk_thread ClsThread 7 "1234".

Definition sample_user : thread_obj := mk_thread ClsUser 7 "5678".

(** The answers of the outside, call after call. *)
Definition in_turn (l : list value) : nat -> answer :=
  fun n =>
    match nth_error l n with
    | Some v => Returns v
    | None => Throws PNone
    end.

(** A world with a raw thread at 0 and a user at 1, before any call. *)
Definition sample_world (l : list value) : world :=
  mk_world [sample_thread; sample_user] (in_turn l) [] [].

(** Stand-ins for the helpers of the sibling modules. *)
Definition whole_seconds (d : timedelta) : Z := (days d * 86400 + seconds d)%Z.

Definition epoch_millis (d : datetime) : Z := 0%Z.

Definition file_key (mimetype : string) : string := "file_id".

Definition no_mention_data (m : unit) (i : nat) : strdict := [].

Definition size_name (s : unit) : string := "SMALL".

Definition addressed (c : class) (tid : string) : strdict :=
  [("other_user_fbid", PStr tid)].

Definition image_edge : value :=
  PDict [(PStr "node", PDict [(PStr "__typename", PStr "MessageImage")])].

Definition video_edge : value :=
  PDict [(PStr "node", PDict [(PStr "__typename", PStr "MessageVideo")])].

Definition file_edge : value :=
  PDict [(PStr "node",
          PDict [ (PStr "__typename", PStr "MessageFile");
                  (PStr "legacy_attachment_id", PStr "99") ])].

(** A response of the shared media query for the thread "5678". *)
Definition media_response (es : list value) (info : list (value * value)) : value :=
  PList
    [PDict
       [(PStr "5678",
         PDict
           [(PStr "message_shared_media",
             PDict [(PStr "edges", PList es); (PStr "page_info", PDict info)])])]].

Definition first_info : list (value * value) :=
  [(PStr "has_next_page", PBool true); (PStr "end_cursor", PStr "c1")].

Definition last_info : list (value * value) :=
  [(PStr "has_next_page", PBool false); (PStr "end_cursor", PNone)].

Definition media_world : world :=
  sample_world
    [ media_response [image_edge; video_edge] first_info;
      media_response [file_edge] last_info ].

Definition search_response : value :=
  PDict
    [(PStr "search_snippets",
      PDict
        [(PStr "hello",
          PDict
            [(PStr "5678",
              PDict
                [(PStr "snippets",
                  PList [ PDict [(PStr "message_id", PStr "m1")];
                          PDict [(PStr "message_id", PStr "m2")] ])])])])].

Definition messages_response : value :=
  PList
    [PDict
       [(PStr "message_thread",
         PDict
           [ (PStr "read_receipts", PDict [(PStr "nodes", PList [])]);
             (PStr "messages",
              PDict [(PStr "nodes", PList [PStr "first"; PStr "second"])]) ])]].

Definition group_info : list (value * value) :=
  [ (PStr "emoji", PStr ":)");
    (PStr "outgoing_bubble_color", PStr "FF44BEC7");
    (PStr "participant_customizations",
     PList
       [ PDict [(PStr "participant_id", PStr "1"); (PStr "nickname", PStr "Al")];
         PDict [(PStr "participant_id", PStr "2"); (PStr "nickname", PStr "Bo")] ]) ].

Definition group_fields : list (value * value) :=
  [ (PStr "thread_type", PStr "GROUP");
    (PStr "customization_info", PDict group_info) ].

(** An answer that reports a failure. *)
Definition failure_response : value :=
  PDict [(PStr "success", PBool false); (PStr "error", PStr "Not allowed")].

(** A group whose customizations are present and [None]. *)
Definition bare_group_fields : list (value * value) :=
  [ (PStr "thread_type", PStr "GROUP");
    (PStr "customization_info",
     PDict [ (PStr "emoji", PStr ":)");
             (PStr "outgoing_bubble_color", PStr "FF44BEC7");
             (PStr "participant_customizations", PNone) ]) ].

(** A thread whose key is present and [None]. *)
Definition keyless_fields : list (value * value) :=
  [ (PStr "thread_key", PNone);
    (PStr "customization_info", PDict [(PStr "emoji", PStr ":)")]) ].

Definition actor_node (typename thread_id : string) : value :=
  PDict [(PStr "messaging_actor",
          PDict [(PStr "__typename", PStr typename); (PStr "id", PStr thread_id)])].

(** Participants of five types. *)
Definition all_participants : value :=
  PDict [(PStr "nodes",
          PList [ actor_node "User" "1"; actor_node "Group" "2";
                  actor_node "MessageThread" "3"; actor_node "Page" "4";
                  actor_node "Bot" "5" ])].

(** Participants with a node that has no actor. *)
Definition broken_participants : value :=
  PDict [(PStr "nodes",
          PList [actor_node "User" "1"; PDict []; actor_node "Page" "4"])].

(** A world in which every request is answered with an empty page of shared
    media that announces a next page. *)
Definition stuck_world : world :=
  mk_world [sample_thread; sample_user]
    (fun _ => Returns (media_response [] first_info)) [] [].

(** A search result whose second snippet has no message id. *)
Definition broken_search_response : value :=
  PDict
    [(PStr "search_snippets",
      PDict
        [(PStr "hello",
          PDict
            [(PStr "5678",
              PDict
                [(PStr "snippets",
                  PList [ PDict [(PStr "message_id", PStr "m1")];
                          PDict [];
                          PDict [(PStr "message_id", PStr "m3")] ])])])])].

(** * Properties *)

(** ** Running the monad *)

Lemma bind_ok {A B} {m : M A} (k : A -> M B) {w w' : world} {a : A} :
  m w = (Ok a, w') -> bind m k w = k a w'.
Proof. intros H. unfold bind. now rewrite H. Qed.

Lemma bind_raise {A B} {m : M A} (k : A -> M B) {w w' : world} {e : exn} :
  m w = (Raise e, w') -> bind m k w = (Raise e, w').
Proof. intros H. unfold bind. now rewrite H. Qed.

Lemma deref_live (self : addr) {o : thread_obj} {w : world} :
  nth_error (heap w) self = Some o -> deref self w = (Ok o, w).
Proof. intros H. unfold deref. now rewrite H. Qed.

Lemma attr_id_live (self : addr) {o : thread_obj} {w : world} :
  nth_error (heap w) self = Some o -> attr_id self w = (Ok (id o), w).
Proof. intros H. unfold attr_id. now rewrite (bind_ok _ (deref_live self H)). Qed.

Lemma attr_id_dead (self : addr) {w : world} :
  nth_error (heap w) self = None -> attr_id self w = (Raise AttributeError, w).
Proof. intros H. unfold attr_id, bind, deref. now rewrite H. Qed.

Lemma attr_session_live (self : addr) {o : thread_obj} {w : world} :
  nth_error (heap w) self = Some o -> attr_session self w = (Ok (session o), w).
Proof. intros H. unfold attr_session. now rewrite (bind_ok _ (deref_live self H)). Qed.

Lemma attr_class_live (self : addr) {o : thread_obj} {w : world} :
  nth_error (heap w) self = Some o -> attr_class self w = (Ok (cls o), w).
Proof. intros H. unfold attr_class. now rewrite (bind_ok _ (deref_live self H)). Qed.

Lemma session_call_live (self : addr) {o : thread_obj} (r : request) {w : world} :
  nth_error (heap w) self = Some o ->
  session_call self r w = external (Session (session o) r) w.
Proof.
  intros H. unfold session_call. now rewrite (bind_ok _ (attr_session_live self H)).
Qed.

Lemma external_calls (c : call) (w : world) : snd (external c w) = called c w.
Proof. unfold external. now destruct (answers w (length (calls w))). Qed.

Lemma bind_attr_id (self : addr) {o : thread_obj} {w : world} {B}
  (k : string -> M B) :
  nth_error (heap w) self = Some o -> bind (attr_id self) k w = k (id o) w.
Proof. intros H. apply bind_ok, attr_id_live, H. Qed.

Lemma bind_attr_session (self : addr) {o : thread_obj} {w : world} {B}
  (k : session_ref -> M B) :
  nth_error (heap w) self = Some o -> bind (attr_session self) k w = k (session o) w.
Proof. intros H. apply bind_ok, attr_session_live, H. Qed.

Lemma bind_attr_class (self : addr) {o : thread_obj} {w : world} {B}
  (k : class -> M B) :
  nth_error (heap w) self = Some o -> bind (attr_class self) k w = k (cls o) w.
Proof. intros H. apply bind_ok, attr_class_live, H. Qed.

Lemma bind_session_call (self : addr) {o : thread_obj} (r : request) {w : world} {B}
  (k : value -> M B) :
  nth_error (heap w) self = Some o ->
  bind (session_call self r) k w
  = match answers w (length (calls w)) with
    | Returns v => k v (called (Session (session o) r) w)
    | Throws e => (Raise (CollaboratorError e), called (Session (session o) r) w)
    end.
Proof.
  intros H. unfold bind at 1. rewrite (session_call_live self r H). unfold external.
  now destruct (answers w (length (calls w))).
Qed.

Lemma bind_lift {A B} (r : res A) (k : A -> M B) (w : world) :
  bind (lift r) k w = match r with inl e => (inl e, w) | inr a => k a w end.
Proof. reflexivity. Qed.

(** Reduces a step on an outcome that is known. *)
Ltac res_step := cbv beta iota delta [rbind Ok Raise].

(** Rewrites with a known outcome, whatever steps are already reduced. *)
Ltac known L :=
  let Q := fresh "Q" in
  pose proof L as Q;
  cbv beta iota delta [rbind Ok Raise] in Q;
  cbv beta iota delta [rbind Ok Raise];
  rewrite Q; clear Q; res_step.

(** Runs a pure step of a computation. *)
Ltac lifted :=
  cbv beta iota delta [Ok Raise]; rewrite bind_lift; cbv beta iota delta [Ok Raise].

(** Unfolds the reads of [self] and the session calls of a live object. *)
Ltac live H :=
  repeat match goal with
    | |- context [bind (attr_id ?s) ?k ?w] => rewrite (@bind_attr_id s _ w _ k H)
    | |- context [bind (attr_session ?s) ?k ?w] =>
        rewrite (@bind_attr_session s _ w _ k H)
    | |- context [bind (attr_class ?s) ?k ?w] => rewrite (@bind_attr_class s _ w _ k H)
    | |- context [bind (session_call ?s ?r) ?k ?w] =>
        rewrite (@bind_session_call s _ r w _ k H)
    end;
  cbv beta.

(** ** Colors *)

(** C9: [_parse_color] gives the default color for [None] and for the empty
    string; for a non-empty string it gives "#" followed by the lowered
    string without its first two characters; and every settable color is
    recovered from its server encoding. *)
Theorem parse_color_spec :
  _parse_color PNone = Ok "#0084ff" /\
  _parse_color (PStr "") = Ok "#0084ff" /\
  (forall (a : ascii) (s : string),
      _parse_color (PStr (String a s))
      = Ok ("#" ++ lower (drop_chars 2 (String a s)))) /\
  Forall (fun c => _parse_color (PStr (server_color c)) = Ok c) SETABLE_COLORS.
Proof.
  repeat split.
  repeat constructor.
Qed.

Lemma in_tuple_In (color : string) (t : list string) :
  in_tuple color t = true <-> In color t.
Proof.
  unfold in_tuple. rewrite existsb_exists. split.
  - intros [x [Hx E]]. apply String.eqb_eq in E. now subst.
  - intros H. exists color. split; [assumption | apply String.eqb_refl].
Qed.

(** C1: [SETABLE_COLORS] lists 20 colors; [set_color] raises [ValueError]
    exactly for the strings outside it; for a color of the list it posts one
    payload whose
    [color_choice] is the empty string for the default color and the color
    itself otherwise. *)
Theorem set_color_spec (self : addr) (color : string) (w : world) :
  length SETABLE_COLORS = 20 /\
  (fst (set_color self color w) = Raise ValueError <-> ~ In color SETABLE_COLORS) /\
  (forall o : thread_obj,
      nth_error (heap w) self = Some o ->
      In color SETABLE_COLORS ->
      calls (after (set_color self color) w)
      = (calls w ++
         [Session (session o)
            (_payload_post save_thread_color
               [ ("color_choice", PStr (if color =? "#0084ff" then "" else color));
                 ("thread_or_other_fbid", PStr (id o)) ])])%list).
Proof.
  split; [ reflexivity | ].
  unfold set_color, after. cbv zeta. split.
  - destruct (in_tuple color SETABLE_COLORS) eqn:E; cbn [negb].
    + apply in_tuple_In in E. split; [ | intros N; contradiction ].
      intros H. exfalso. revert H.
      destruct (nth_error (heap w) self) as [o | ] eqn:L.
      * live L. destruct (answers w (length (calls w))); discriminate.
      * rewrite (bind_raise _ (attr_id_dead self L)). discriminate.
    + split; [ | reflexivity ].
      intros _ H. apply in_tuple_In in H. rewrite E in H. discriminate.
  - intros o Hlive Hin. apply in_tuple_In in Hin. rewrite Hin. cbn [negb].
    live Hlive. now destruct (answers w (length (calls w))).
Qed.

(** ** Raw threads *)

Lemma to_send_data_raw (self : addr) {o : thread_obj} {w : world} {B}
  (k : strdict -> M B) :
  nth_error (heap w) self = Some o ->
  cls o = ClsThread ->
  bind (_to_send_data self) k w = (Raise NotImplementedError, w).
Proof.
  intros H C. apply bind_raise. unfold _to_send_data.
  rewrite (bind_ok _ (deref_live self H)). now rewrite C.
Qed.

(** C8: on an object of the class [Thread] itself, each of [wave],
    [send_text], [send_emoji], [send_sticker], [send_location],
    [send_pinned_location] and [send_files] raises [NotImplementedError] and
    leaves the world as it was: no call has reached the session. *)
Theorem raw_thread_cannot_send (self : addr) (o : thread_obj) (w : world) :
  nth_error (heap w) self = Some o ->
  cls o = ClsThread ->
  (forall first, wave self first w = (Raise NotImplementedError, w)) /\
  (forall text mentions files reply_to_id,
      send_text self text mentions files reply_to_id w
      = (Raise NotImplementedError, w)) /\
  (forall emoji size, send_emoji self emoji size w = (Raise NotImplementedError, w)) /\
  (forall sticker_id, send_sticker self sticker_id w = (Raise NotImplementedError, w)) /\
  (forall latitude longitude,
      send_location self latitude longitude w = (Raise NotImplementedError, w)) /\
  (forall latitude longitude,
      send_pinned_location self latitude longitude w = (Raise NotImplementedError, w)) /\
  (forall files, send_files self files w = (Raise NotImplementedError, w)).
Proof.
  intros H C.
  assert (L : forall current latitude longitude,
             _send_location self current latitude longitude w
             = (Raise NotImplementedError, w)).
  { intros. unfold _send_location. apply (to_send_data_raw self _ H C). }
  repeat split; intros;
    try (unfold wave, send_text, send_emoji, send_sticker, send_files, send_text;
         apply (to_send_data_raw self _ H C)).
  - unfold send_location. apply bind_raise, L.
  - unfold send_pinned_location. apply bind_raise, L.
Qed.

(** ** Muting *)

(** C7: [mute(None)] posts the setting "-1"; [mute(d)] posts the decimal
    form of the seconds that [timedelta_to_seconds] makes of [d]; [unmute]
    is [mute] of the zero timedelta and, when that helper makes 0 of it,
    posts "0"; each time [thread_fbid] is the thread's id. *)
Theorem mute_spec (self : addr) (o : thread_obj) (w : world) :
  nth_error (heap w) self = Some o ->
  let posted s :=
    (calls w ++
     [Session (session o) (_payload_post change_mute_thread (mute_payload s (id o)))])%list in
  calls (after (mute self None) w) = posted "-1" /\
  (forall d : timedelta,
      calls (after (mute self (Some d)) w) = posted (str_int (timedelta_to_seconds d))) /\
  unmute self = mute self (Some (mk_timedelta 0 0 0)) /\
  (timedelta_to_seconds (mk_timedelta 0 0 0) = 0%Z ->
   calls (after (unmute self) w) = posted "0").
Proof.
  intros H posted.
  assert (G : forall duration,
             calls (after (mute self duration) w)
             = posted (match duration with
                       | None => "-1"
                       | Some d => str_int (timedelta_to_seconds d)
                       end)).
  { intros duration. unfold mute, after. cbv zeta. live H.
    now destruct (answers w (length (calls w))). }
  repeat split.
  - apply (G None).
  - intros d. apply (G (Some d)).
  - intros Z. unfold unmute. rewrite (G (Some timedelta_0)). unfold timedelta_0.
    now rewrite Z.
Qed.

(** ** Polls *)

Lemma str_nat_inj (n m : nat) : str_nat n = str_nat m -> n = m.
Proof.
  unfold str_nat. intros E. apply DecimalNat.Unsigned.to_uint_inj.
  assert (S : Some (Nat.to_uint n) = Some (Nat.to_uint m)).
  { rewrite <- (NilEmpty.usu (Nat.to_uint n)), <- (NilEmpty.usu (Nat.to_uint m)).
    now rewrite E. }
  now injection S.
Qed.

Lemma append_bracket_inj (a b : string) : a ++ "]" = b ++ "]" -> a = b.
Proof.
  revert b. induction a as [ | c a IH]; intros [ | d b]; cbn; intros E.
  - reflexivity.
  - injection E as _ E. destruct b; discriminate.
  - injection E as _ E. destruct a; discriminate.
  - injection E as -> E. f_equal. now apply IH.
Qed.

Lemma option_text_inj (n m : nat) : option_text n = option_text m -> n = m.
Proof.
  unfold option_text. cbn. intros E. injection E as E.
  now apply str_nat_inj, append_bracket_inj.
Qed.

Lemma option_is_selected_inj (n m : nat) :
  option_is_selected n = option_is_selected m -> n = m.
Proof.
  unfold option_is_selected. cbn. intros E. injection E as E.
  now apply str_nat_inj, append_bracket_inj.
Qed.

Lemma option_text_not_selected (n m : nat) : option_text n <> option_is_selected m.
Proof. unfold option_text, option_is_selected. cbn. discriminate. Qed.

Lemma setitem_fresh (d : strdict) (k : string) (v : value) :
  ~ In k (map fst d) -> setitem d k v = (d ++ [(k, v)])%list.
Proof.
  induction d as [ | [k' v'] d IH]; cbn; intros N.
  - reflexivity.
  - destruct (String.eqb_spec k k') as [-> | _].
    + exfalso. apply N. now left.
    + f_equal. apply IH. intros I. apply N. now right.
Qed.

Lemma poll_loop_fields (options : list (string * bool)) :
  forall (i : nat) (d : strdict),
    fresh_from i d ->
    for_enumerate
      (fun i (o : string * bool) data =>
         let data := setitem data ("option_text_array[" ++ str_nat i ++ "]") (PStr (fst o)) in
         setitem data ("option_is_selected_array[" ++ str_nat i ++ "]")
           (PStr (if snd o then "1" else "0")))
      i options d
    = (d ++ poll_fields i options)%list.
Proof.
  induction options as [ | [text vote] options IH]; intros i d F; cbn [for_enumerate poll_fields].
  - now rewrite app_nil_r.
  - cbv zeta. cbn [fst snd].
    change ("option_text_array[" ++ str_nat i ++ "]") with (option_text i).
    change ("option_is_selected_array[" ++ str_nat i ++ "]") with (option_is_selected i).
    destruct (F i (le_n i)) as [T S].
    rewrite (setitem_fresh d _ _ T).
    rewrite setitem_fresh.
    + rewrite IH.
      * now rewrite <- !app_assoc.
      * intros n L. rewrite <- app_assoc, !map_app. cbn [map fst app].
        destruct (F n) as [Tn Sn]; [ lia | ].
        split; intros I; apply in_app_or in I; destruct I as [I | [I | [I | []]]];
          try contradiction.
        -- apply option_text_inj in I. lia.
        -- symmetry in I. now apply option_text_not_selected in I.
        -- now apply option_text_not_selected in I.
        -- apply option_is_selected_inj in I. lia.
    + rewrite map_app. cbn [map fst]. intros I. apply in_app_or in I.
      destruct I as [I | [I | []]]; [ contradiction | ].
      now apply option_text_not_selected in I.
Qed.

Lemma poll_options_fields (question tid : string) (options : list (string * bool)) :
  poll_options options [("question_text", PStr question); ("target_id", PStr tid)]
  = ([("question_text", PStr question); ("target_id", PStr tid)]
       ++ poll_fields 0 options)%list.
Proof.
  unfold poll_options. apply poll_loop_fields.
  intros n _. unfold option_text, option_is_selected. cbn.
  split; intros [I | [I | []]]; discriminate.
Qed.

Lemma py_eq_str (v : value) (s : string) : py_eq v (PStr s) = true <-> v = PStr s.
Proof.
  destruct v; cbn; try (split; discriminate).
  rewrite String.eqb_eq. split; congruence.
Qed.

(** C3: [create_poll] posts exactly one request, whose payload is
    [question_text], [target_id] and then the fields of the options in
    their order; when the response is a mapping, [FBchatFacebookError] is
    raised exactly if its [status] is not "success". *)
Theorem create_poll_spec (self : addr) (o : thread_obj) (question : string)
  (options : list (string * bool)) (w : world) :
  nth_error (heap w) self = Some o ->
  calls (after (create_poll self question options) w)
  = (calls w ++
     [Session (session o)
        (_payload_post create_poll_url
           (("question_text", PStr question) :: ("target_id", PStr (id o))
              :: poll_fields 0 options))])%list /\
  (forall j : list (value * value),
      answers w (length (calls w)) = Returns (PDict j) ->
      (exists m, fst (create_poll self question options w) = Raise (FBchatFacebookError m))
      <-> dict_lookup (PStr "status") j <> Some (PStr "success")).
Proof.
  intros H. unfold create_poll, after. cbv zeta. live H.
  rewrite poll_options_fields. cbn [app].
  split.
  - destruct (answers w (length (calls w))) as [j | e]; [ | reflexivity ].
    lifted. destruct (py_get j "status" PNone) as [e | status]; [ reflexivity | ].
    destruct (negb (py_eq status (PStr "success"))); [ | reflexivity ].
    lifted.
    destruct (py_get j "errorTitle" PNone); [ reflexivity | ].
    lifted.
    destruct (py_get j "errorMessage" PNone); reflexivity.
  - intros j ->. lifted. cbn [py_get].
    assert (R : exists m,
               fst ((_ <- lift (py_get (PDict j) "errorTitle" PNone) ;;
                     msg <- lift (py_get (PDict j) "errorMessage" PNone) ;;
                     @raise unit (FBchatFacebookError msg))
                      (called
                         (Session (session o)
                            (_payload_post "/messaging/group_polling/create_poll/?dpr=1"
                               (("question_text", PStr question)
                                  :: ("target_id", PStr (id o))
                                  :: poll_fields 0 options))) w))
               = Raise (FBchatFacebookError m)).
    { lifted. cbn [py_get].
      destruct (dict_lookup (PStr "errorTitle") j); lifted; cbn [py_get];
        destruct (dict_lookup (PStr "errorMessage") j); eexists; reflexivity. }
    destruct (dict_lookup (PStr "status") j) as [status | ] eqn:S;
      cbv beta iota delta [Ok].
    + destruct (py_eq status (PStr "success")) eqn:E; cbn [negb].
      * apply py_eq_str in E. subst status. split; [ | congruence ].
        intros [m C]. discriminate.
      * split; [ | intros _; exact R ].
        intros _ C. injection C as ->. cbn in E. discriminate.
    + split; [ discriminate | intros _; exact R ].
Qed.

(** ** Computations that leave the world alone *)

Lemma silent_ret {A} (a : A) : silent (ret a).
Proof. now intros w. Qed.

Lemma silent_raise {A} (e : exn) : silent (@raise A e).
Proof. now intros w. Qed.

Lemma silent_lift {A} (r : res A) : silent (lift r).
Proof. now intros w. Qed.

Lemma silent_bind {A B} (m : M A) (k : A -> M B) :
  silent m -> (forall a, silent (k a)) -> silent (bind m k).
Proof.
  intros Hm Hk w. unfold bind. specialize (Hm w).
  destruct (m w) as [[e | a] w']; cbn in *; subst; [ reflexivity | apply Hk ].
Qed.

Lemma silent_deref (a : addr) : silent (deref a).
Proof. intros w. unfold deref. now destruct (nth_error (heap w) a). Qed.

Lemma silent_attr_id (a : addr) : silent (attr_id a).
Proof. apply silent_bind; [ apply silent_deref | intros; apply silent_ret ]. Qed.

Lemma silent_attr_session (a : addr) : silent (attr_session a).
Proof. apply silent_bind; [ apply silent_deref | intros; apply silent_ret ]. Qed.

Lemma silent_attr_class (a : addr) : silent (attr_class a).
Proof. apply silent_bind; [ apply silent_deref | intros; apply silent_ret ]. Qed.

Lemma silent_if {A} (b : bool) (m n : M A) :
  silent m -> silent n -> silent (if b then m else n).
Proof. now destruct b. Qed.

Lemma gsilent_stop {A} : gsilent (@stop A).
Proof. now intros w. Qed.

Lemma gsilent_yield {A} (a : A) (g : gen A) : gsilent g -> gsilent (yield a g).
Proof.
  intros H w. unfold yield. specialize (H w). now destruct (g w) as [[ys e] w'].
Qed.

Lemma gsilent_gen_bind {A B} (m : M B) (k : B -> gen A) :
  silent m -> (forall b, gsilent (k b)) -> gsilent (gen_bind m k).
Proof.
  intros Hm Hk w. unfold gen_bind. specialize (Hm w).
  destruct (m w) as [[e | b] w']; cbn in *; subst; [ reflexivity | apply Hk ].
Qed.

Lemma gsilent_yield_each {A} (f : value -> res A) (l : list value) :
  gsilent (yield_each f l).
Proof.
  induction l as [ | x l IH]; cbn [yield_each].
  - apply gsilent_stop.
  - apply gsilent_gen_bind; [ apply silent_lift | intros; now apply gsilent_yield ].
Qed.

Create HintDb silent.

#[local] Hint Resolve silent_ret silent_raise silent_lift silent_deref silent_attr_id
  silent_attr_session silent_attr_class gsilent_stop gsilent_yield_each : silent.

(** Splits a computation into its steps and shows each one silent. *)
Ltac silence :=
  repeat first
    [ apply silent_bind; [ | intros ]
    | apply silent_if
    | apply gsilent_gen_bind; [ | intros ]
    | apply gsilent_yield
    | solve [ auto with silent ] ].

Lemma gen_bind_assoc {A B C} (m : M B) (k : B -> M C) (g : C -> gen A) (w : world) :
  gen_bind (bind m k) g w = gen_bind m (fun b => gen_bind (k b) g) w.
Proof. unfold gen_bind, bind. now destruct (m w) as [[e | b] w']. Qed.

Lemma gen_bind_attr_id (self : addr) {o : thread_obj} {w : world} {A}
  (g : string -> gen A) :
  nth_error (heap w) self = Some o -> gen_bind (attr_id self) g w = g (id o) w.
Proof. intros H. unfold gen_bind. now rewrite (attr_id_live self H). Qed.

Lemma gen_bind_session_call (self : addr) {o : thread_obj} (r : request) {w : world} {A}
  (g : value -> gen A) :
  nth_error (heap w) self = Some o ->
  gen_bind (session_call self r) g w
  = match answers w (length (calls w)) with
    | Returns v => g v (called (Session (session o) r) w)
    | Throws e =>
        (([], Raised (CollaboratorError e)), called (Session (session o) r) w)
    end.
Proof.
  intros H. unfold gen_bind. rewrite (session_call_live self r H). unfold external.
  now destruct (answers w (length (calls w))).
Qed.

Lemma gen_bind_lift {A B} (r : res B) (g : B -> gen A) (w : world) :
  gen_bind (lift r) g w
  = match r with inl e => (([], Raised e), w) | inr b => g b w end.
Proof. reflexivity. Qed.

Lemma gen_bind_ret {A B} (b : B) (g : B -> gen A) (w : world) :
  gen_bind (ret b) g w = g b w.
Proof. reflexivity. Qed.

(** Unfolds the steps of a generator on a live object. *)
Ltac glive H :=
  repeat first
    [ rewrite gen_bind_assoc
    | rewrite gen_bind_ret
    | match goal with
      | |- context [gen_bind (attr_id ?s) ?g ?w] =>
          rewrite (@gen_bind_attr_id s _ w _ g H)
      | |- context [gen_bind (session_call ?s ?r) ?g ?w] =>
          rewrite (@gen_bind_session_call s _ r w _ g H)
      end ];
  cbv beta.

(** ** Searching *)

Lemma yield_each_all {A} {f : value -> res A} {l : list value} {ys : list A}
  (w : world) :
  Forall2 (fun x y => f x = Ok y) l ys -> yield_each f l w = ((ys, Exhausted), w).
Proof.
  induction 1 as [ | x y l ys E _ IH]; cbn [yield_each].
  - reflexivity.
  - rewrite gen_bind_lift, E. unfold Ok, yield. now rewrite IH.
Qed.

(** C10: [search_messages] posts the query, the offset and the limit under
    [query], [snippetOffset] and [snippetLimit]; it yields nothing when the
    result of the query has no entry, or a falsy one, for the thread's id;
    otherwise it yields the [message_id] of each snippet of that entry, in
    order. *)
Theorem search_messages_spec (self : addr) (o : thread_obj) (query : string)
  (offset limit : Z) (w : world) :
  nth_error (heap w) self = Some o ->
  let found := fst (search_messages self query offset limit w) in
  calls (snd (search_messages self query offset limit w))
  = (calls w ++
     [Session (session o)
        (_payload_post search_snippets
           [ ("query", PStr query);
             ("snippetOffset", PInt offset);
             ("snippetLimit", PInt limit);
             ("identifier", PStr "thread_fbid");
             ("thread_fbid", PStr (id o)) ])])%list /\
  (forall (j : value) (result : list (value * value)),
      answers w (length (calls w)) = Returns j ->
      (s <~ getitem j (PStr "search_snippets") ; getitem s (PStr query))%res
      = Ok (PDict result) ->
      (dict_lookup (PStr (id o)) result = None -> found = ([], Exhausted)) /\
      (forall entry,
          dict_lookup (PStr (id o)) result = Some entry ->
          truthy entry = false ->
          found = ([], Exhausted)) /\
      (forall entry snippets ids,
          dict_lookup (PStr (id o)) result = Some entry ->
          truthy entry = true ->
          getitem entry (PStr "snippets") = Ok (PList snippets) ->
          Forall2 (fun snippet mid => getitem snippet (PStr "message_id") = Ok mid)
            snippets ids ->
          found = (ids, Exhausted))).
Proof.
  intros H found. subst found. unfold search_messages. glive H. split.
  - destruct (answers w (length (calls w))) as [j | e]; [ | reflexivity ].
    change (calls w ++ _)%list with (calls (called (Session (session o)
      (_payload_post search_snippets
         [ ("query", PStr query); ("snippetOffset", PInt offset);
           ("snippetLimit", PInt limit); ("identifier", PStr "thread_fbid");
           ("thread_fbid", PStr (id o)) ])) w)).
    f_equal. apply gsilent_gen_bind; [ silence | intros; silence ].
  - intros j result -> R. glive H. rewrite gen_bind_lift, R. cbv beta iota delta [Ok].
    glive H. rewrite gen_bind_lift. cbn [py_get].
    assert (N : yield_each (fun snippet => getitem snippet (PStr "message_id")) []
                  (called (Session (session o)
                     (_payload_post "/ajax/mercury/search_snippets.php?dpr=1"
                        [ ("query", PStr query); ("snippetOffset", PInt offset);
                          ("snippetLimit", PInt limit);
                          ("identifier", PStr "thread_fbid");
                          ("thread_fbid", PStr (id o)) ])) w)
                = (([], Exhausted), called (Session (session o)
                     (_payload_post "/ajax/mercury/search_snippets.php?dpr=1"
                        [ ("query", PStr query); ("snippetOffset", PInt offset);
                          ("snippetLimit", PInt limit);
                          ("identifier", PStr "thread_fbid");
                          ("thread_fbid", PStr (id o)) ])) w)) by reflexivity.
    repeat split.
    + intros ->. cbv beta iota delta [Ok]. cbn [truthy]. glive H.
      rewrite gen_bind_lift. cbn [py_iter]. cbv beta iota delta [Ok]. now rewrite N.
    + intros entry -> F. cbv beta iota delta [Ok]. rewrite F. glive H.
      rewrite gen_bind_lift. cbn [py_iter]. cbv beta iota delta [Ok]. now rewrite N.
    + intros entry snippets ids L T S A. rewrite L. cbv beta iota delta [Ok].
      rewrite T. glive H. rewrite gen_bind_lift.
      cbn [getitem hashable]. rewrite L.
      cbv beta iota delta [Ok rbind]. rewrite S.
      glive H. rewrite gen_bind_lift. cbn [py_iter]. cbv beta iota delta [Ok].
      now rewrite (yield_each_all _ A).
Qed.

(** ** Thread objects are never written *)

Lemma keeps_silent {A} (m : M A) : silent m -> keeps m.
Proof. intros H w. exists []. now rewrite H, app_nil_r. Qed.

Lemma keeps_gsilent {A} (g : gen A) : gsilent g -> keeps g.
Proof. intros H w. exists []. now rewrite H, app_nil_r. Qed.

Lemma keeps_bind {A B} (m : M A) (k : A -> M B) :
  keeps m -> (forall a, keeps (k a)) -> keeps (bind m k).
Proof.
  intros Hm Hk w. unfold bind. destruct (Hm w) as [l E].
  destruct (m w) as [[e | a] w']; cbn in *.
  - now exists l.
  - destruct (Hk a w') as [l' E']. exists (l ++ l')%list.
    now rewrite E', E, app_assoc.
Qed.

Lemma keeps_gen_bind {A B} (m : M B) (k : B -> gen A) :
  keeps m -> (forall b, keeps (k b)) -> keeps (gen_bind m k).
Proof.
  intros Hm Hk w. unfold gen_bind. destruct (Hm w) as [l E].
  destruct (m w) as [[e | b] w']; cbn in *.
  - now exists l.
  - destruct (Hk b w') as [l' E']. exists (l ++ l')%list.
    now rewrite E', E, app_assoc.
Qed.

Lemma keeps_yield {A} (a : A) (g : gen A) : keeps g -> keeps (yield a g).
Proof.
  intros H w. unfold yield. destruct (H w) as [l E].
  destruct (g w) as [[ys e] w']. now exists l.
Qed.

Lemma keeps_external (c : call) : keeps (external c).
Proof. intros w. exists []. rewrite external_calls. cbn. now rewrite app_nil_r. Qed.

Lemma keeps_new (o : thread_obj) : keeps (new o).
Proof. intros w. now exists [o]. Qed.

Lemma keeps_log_warning (typename data : value) : keeps (log_warning typename data).
Proof. intros w. exists []. cbn. now rewrite app_nil_r. Qed.

Lemma keeps_construct (c : class) (s : session_ref) (tid : value) :
  keeps (construct c s tid).
Proof. destruct c; apply keeps_new. Qed.

(** Splits a method into its steps; each one keeps the thread objects. *)
Ltac frame :=
  repeat first
    [ progress cbv zeta
    | apply keeps_bind; [ | intros ]
    | apply keeps_gen_bind; [ | intros ]
    | apply keeps_yield
    | apply keeps_external
    | apply keeps_construct
    | apply keeps_log_warning
    | apply keeps_silent; solve [ silence ]
    | apply keeps_gsilent; solve [ silence ]
    | match goal with
      | |- keeps (if ?b then _ else _) => destruct b
      | |- keeps (match ?x with _ => _ end) => destruct x
      end ].

Lemma keeps_session_call (self : addr) (r : request) : keeps (session_call self r).
Proof. unfold session_call. frame. Qed.

Lemma keeps_to_send_data (self : addr) : keeps (_to_send_data self).
Proof. apply keeps_silent. unfold _to_send_data. silence. destruct (cls a); silence. Qed.

Lemma keeps_fetch_images_pass (self : addr) (data : strdict) (j : value) :
  keeps (fetch_images_pass self data j).
Proof. unfold fetch_images_pass. frame; apply keeps_session_call. Qed.

Lemma keeps_fetch_images_loop (fuel : nat) :
  forall (self : addr) (data : strdict) (j : value),
    keeps (fetch_images_loop fuel self data j).
Proof.
  induction fuel as [ | fuel IH]; intros self data j; cbn [fetch_images_loop].
  - now apply keeps_gsilent.
  - apply keeps_gen_bind; [ apply keeps_fetch_images_pass | ].
    intros [a j' | data' j' | ]; [ apply keeps_yield | | now apply keeps_gsilent ];
      apply IH.
Qed.

Lemma keeps_participants_loop (s : session_ref) (data : value) (nodes : list value) :
  keeps (participants_loop s data nodes).
Proof.
  induction nodes as [ | node nodes IH]; cbn [participants_loop].
  - now apply keeps_gsilent.
  - frame; assumption.
Qed.

(** Every operation keeps the thread objects. *)
Lemma run_keeps (op : operation) (self : addr) (w : world) :
  exists l, heap (run op self w) = (heap w ++ l)%list.
Proof.
  revert w.
  assert (S : forall data, keeps (session_call self data))
    by (intros; apply keeps_session_call).
  assert (T : keeps (_to_send_data self)) by apply keeps_to_send_data.
  destruct op; cbn [run]; unfold after;
    match goal with |- forall w, exists l, heap (snd (?m w)) = _ => change (keeps m) end.
  all: try (unfold wave, send_text, send_emoji, send_sticker, send_location,
            send_pinned_location, _send_location, send_files, send_text,
            search_messages, fetch_messages, set_nickname, set_color, set_emoji,
            forward_attachment, start_typing, stop_typing, _set_typing, create_plan,
            create_poll, unmute, mute, mute_reactions, unmute_reactions,
            _mute_reactions, mute_mentions, unmute_mentions, _mute_mentions,
            mark_as_spam, _forced_fetch;
            solve [ frame; auto ]).
  - unfold fetch_images. frame; auto. apply keeps_fetch_images_loop.
  - unfold _parse_participants. frame. apply keeps_participants_loop.
Qed.

Lemma run_keeps_object (op : operation) (self a : addr) (o : thread_obj) (w : world) :
  nth_error (heap w) a = Some o -> nth_error (heap (run op self w)) a = Some o.
Proof.
  intros H. destruct (run_keeps op self w) as [l ->].
  rewrite nth_error_app1; [ assumption | ].
  apply nth_error_Some. congruence.
Qed.

(** ** The id of a thread *)

Lemma str_int_nonempty (n : Z) : str_int n <> "".
Proof.
  unfold str_int. destruct n as [ | p | p]; cbn; try discriminate.
  pose proof (DecimalPos.Unsigned.to_uint_nonnil p) as N.
  now destruct (Pos.to_uint p).
Qed.

Lemma py_str_empty (v : value) : py_str v = "" <-> v = PStr "".
Proof.
  split; [ | now intros -> ].
  destruct v as [ | [ | ] | n | s | l | d]; cbn; try discriminate.
  - intros E. now apply str_int_nonempty in E.
  - now intros ->.
Qed.

(** C2, as the code has it: the constructor stores [str(id)], so the id of
    a thread is a string, and it is empty exactly when the argument was the
    empty string; no operation changes the id (or any attribute) of a
    thread object. *)
Theorem thread_id_invariant :
  (forall (s : session_ref) (tid : value) (w : world),
      exists o,
        fst (Thread_init s tid w) = Ok (length (heap w)) /\
        nth_error (heap (after (Thread_init s tid) w)) (length (heap w)) = Some o /\
        id o = py_str tid /\
        (id o = "" <-> tid = PStr "")) /\
  (forall (op : operation) (self a : addr) (o : thread_obj) (w : world),
      nth_error (heap w) a = Some o ->
      exists o', nth_error (heap (run op self w)) a = Some o' /\ id o' = id o).
Proof.
  split.
  - intros s tid w. exists (mk_thread ClsThread s (py_str tid)).
    unfold Thread_init, new, after. cbn.
    rewrite nth_error_app2, Nat.sub_diag by apply le_n.
    repeat split; try apply py_str_empty; now intros ->%py_str_empty.
  - intros op self a o w H. exists o. split; [ | reflexivity ].
    now apply run_keeps_object.
Qed.

(** ** No operation writes to its thread *)

Lemma bind_construct (c : class) (s : session_ref) (tid : string) {B}
  (k : addr -> M B) (w : world) :
  bind (construct c s (PStr tid)) k w
  = k (length (heap w))
      (mk_world (heap w ++ [mk_thread c s tid]) (answers w) (calls w) (warnings w)).
Proof. now destruct c. Qed.

(** C6: after any operation the receiver is the object it was, with the
    same [id] and [session]; and a [fetch_messages] that gets a well-formed
    answer makes one new object of the receiver's class, with its session
    and id, and hands that one, not the receiver, to the messages. *)
Theorem operations_do_not_mutate (self : addr) (o : thread_obj) (w : world) :
  nth_error (heap w) self = Some o ->
  (forall op : operation,
      exists o',
        nth_error (heap (run op self w)) self = Some o' /\
        id o' = id o /\ session o' = session o) /\
  (forall (limit : Z) (before : option datetime) (r j mt read_receipts : value)
          (nodes : list value),
      answers w (length (calls w)) = Returns r ->
      unpack1 r = Ok j ->
      py_get j "message_thread" PNone = Ok mt ->
      is_none mt = false ->
      (mt <~ getitem j (PStr "message_thread") ;
       rr <~ getitem mt (PStr "read_receipts") ;
       getitem rr (PStr "nodes"))%res = Ok read_receipts ->
      (mt <~ getitem j (PStr "message_thread") ;
       ms <~ getitem mt (PStr "messages") ;
       ns <~ getitem ms (PStr "nodes") ;
       py_iter ns)%res = Ok nodes ->
      let thread := length (heap w) in
      thread <> self /\
      fst (fetch_messages self limit before w)
      = Ok (rev (map (fun m => MessageData_from_graphql thread m read_receipts) nodes)) /\
      heap (after (fetch_messages self limit before) w)
      = (heap w ++ [mk_thread (cls o) (session o) (id o)])%list).
Proof.
  intros H. split.
  - intros op. exists o. split; [ | split; reflexivity ].
    now apply run_keeps_object.
  - intros limit before r j mt read_receipts nodes A U G N RR NS thread.
    split.
    + intros E. apply (f_equal (nth_error (heap w))) in E.
      rewrite H in E. subst thread.
      assert (L : length (heap w) < length (heap w))
        by (apply nth_error_Some; congruence).
      lia.
    + unfold fetch_messages, after. cbv zeta. live H. rewrite A.
      lifted. rewrite U. lifted. rewrite G. cbv beta iota delta [Ok]. rewrite N.
      lifted. rewrite RR. cbv beta iota delta [Ok]. live H.
      rewrite bind_construct. lifted. rewrite NS. now cbv beta iota delta [Ok].
Qed.

(** ** Dictionaries of a response *)

Lemma py_eq_str_l (s : string) (v : value) : py_eq (PStr s) v = true <-> v = PStr s.
Proof.
  destruct v; cbn; try (split; discriminate).
  rewrite String.eqb_eq. split; congruence.
Qed.

Lemma getitem_str (v : value) (k : string) (x : value) :
  getitem v (PStr k) = Ok x ->
  exists d, v = PDict d /\ dict_lookup (PStr k) d = Some x.
Proof.
  destruct v as [ | b | n | s | l | d]; cbn; try discriminate.
  intros E. exists d. split; [ reflexivity | ].
  destruct (dict_lookup (PStr k) d); [ | discriminate ].
  unfold Ok in E. congruence.
Qed.

Lemma dict_lookup_insert (d : list (value * value)) (k : string) (v : value) :
  dict_lookup (PStr k) (dict_insert d (PStr k) v) = Some v.
Proof.
  induction d as [ | [k' v'] d IH]; cbn -[py_eq].
  - cbn. now rewrite String.eqb_refl.
  - destruct (py_eq (PStr k) k') eqn:E; cbn -[py_eq]; now rewrite E.
Qed.

Lemma dict_lookup_insert_other (d : list (value * value)) (k k2 : string) (v : value) :
  k2 <> k ->
  dict_lookup (PStr k2) (dict_insert d (PStr k) v) = dict_lookup (PStr k2) d.
Proof.
  intros N. induction d as [ | [k' v'] d IH]; cbn -[py_eq].
  - cbn. now apply String.eqb_neq in N as ->.
  - destruct (py_eq (PStr k) k') eqn:E; cbn -[py_eq].
    + apply py_eq_str_l in E. subst k'. cbn. now apply String.eqb_neq in N as ->.
    + now rewrite IH.
Qed.

Lemma getitem_replace {v : value} {k : string} {x : value} (y : value) :
  getitem v (PStr k) = Ok x -> getitem (dict_replace v k y) (PStr k) = Ok y.
Proof.
  intros G. apply getitem_str in G as [d [-> _]]. cbn -[py_eq].
  now rewrite dict_lookup_insert.
Qed.

Lemma getitem_replace_other {v : value} {k : string} (k2 : string) {x : value}
  (y : value) :
  k2 <> k ->
  getitem v (PStr k) = Ok x ->
  getitem (dict_replace v k y) (PStr k2) = getitem v (PStr k2).
Proof.
  intros N G. apply getitem_str in G as [d [-> _]]. cbn -[py_eq].
  now rewrite dict_lookup_insert_other.
Qed.

Lemma py_get_field (d : list (value * value)) (k : string) :
  py_get (PDict d) k PNone = Ok (field d k).
Proof. unfold field. cbn -[py_eq]. now destruct (dict_lookup (PStr k) d). Qed.

(** ** Shared media *)

Lemma del_first_edge_holds {j : value} {tid : string} {e : value} {es : list value}
  {info : list (value * value)} :
  holds j tid (e :: es) info ->
  exists j', del_first_edge j tid = Ok j' /\ holds j' tid es info.
Proof.
  intros [m [M [E I]]]. unfold shared_media in M. unfold del_first_edge.
  destruct (getitem j (PStr tid)) as [ | x] eqn:X; [ discriminate | ].
  cbn [rbind] in *. rewrite M. res_step. rewrite E. res_step.
  cbn [delitem int_index index_of Z.ltb Z.compare Z.leb Z.of_nat andb Z.to_nat
         remove_nth Pos.of_succ_nat length].
  eexists. split; [ reflexivity | ].
  exists (dict_replace m "edges" (PList es)). unfold shared_media.
  rewrite (getitem_replace _ X). res_step.
  rewrite (getitem_replace _ M).
  rewrite (getitem_replace _ E).
  assert (N : "page_info" <> "edges") by discriminate.
  rewrite (getitem_replace_other "page_info" _ N E).
  repeat split. exact I.
Qed.

Lemma first_edge {j : value} {tid : string} {es : list value}
  {info : list (value * value)} :
  holds j tid es info ->
  (m <~ shared_media j tid ; e <~ getitem m (PStr "edges") ; getitem e (PInt 0))%res
  = match es with
    | [] => Raise IndexError
    | e :: _ => Ok e
    end.
Proof.
  intros [m [M [E I]]]. rewrite M. res_step. rewrite E. res_step. now destruct es.
Qed.

Lemma page_info_field {j : value} {tid : string} {es : list value}
  {info : list (value * value)} (k : string) :
  holds j tid es info ->
  (m <~ shared_media j tid ; p <~ getitem m (PStr "page_info") ; py_get p k PNone)%res
  = Ok (field info k).
Proof.
  intros [m [M [E I]]]. rewrite M. res_step. rewrite I. res_step.
  apply py_get_field.
Qed.

(** A pass over a page that still has an edge yields its attachment and
    takes the edge off the page; no request is made. *)
Lemma pass_yields {self : addr} {o : thread_obj} {w : world} (data : strdict)
  {j e : value} {es : list value} {info : list (value * value)} {a : attachment} :
  nth_error (heap w) self = Some o ->
  holds j (id o) (e :: es) info ->
  attachment_of e = Ok a ->
  exists j',
    fetch_images_pass self data j w = (Ok (Yield a j'), w) /\ holds j' (id o) es info.
Proof.
  intros H P A. destruct (del_first_edge_holds P) as [j' [D P']].
  exists j'. split; [ | exact P' ].
  unfold fetch_images_pass. live H. known (first_edge P).
  lifted. known A. live H. lifted. now known D.
Qed.

(** A pass over an exhausted page with a next page asks for it, with the
    end cursor as [after]. *)
Lemma pass_continues {self : addr} {o : thread_obj} {w : world} (data : strdict)
  {j r j' : value} {info : list (value * value)} :
  nth_error (heap w) self = Some o ->
  holds j (id o) [] info ->
  truthy (field info "has_next_page") = true ->
  answers w (length (calls w)) = Returns r ->
  unpack1 r = Ok j' ->
  let data' := setitem data "after" (field info "end_cursor") in
  fetch_images_pass self data j w
  = (Ok (Continue data' j'), called (Session (session o) (images_query data')) w).
Proof.
  intros H P T A U data'. unfold fetch_images_pass. live H.
  known (first_edge P). live H. lifted.
  known (page_info_field "has_next_page" P). rewrite T.
  live H. lifted. known (page_info_field "end_cursor" P).
  cbv zeta. live H. rewrite A. lifted. now known U.
Qed.

(** A pass breaks out of the loop exactly on an exhausted page without a
    next page. *)
Lemma pass_breaks {self : addr} {o : thread_obj} {w : world} (data : strdict)
  {j : value} {es : list value} {info : list (value * value)} :
  nth_error (heap w) self = Some o ->
  holds j (id o) es info ->
  fst (fetch_images_pass self data j w) = Ok Break
  <-> es = [] /\ truthy (field info "has_next_page") = false.
Proof.
  intros H P. unfold fetch_images_pass. live H. known (first_edge P).
  destruct es as [ | e es]; res_step.
  - live H. lifted. known (page_info_field "has_next_page" P).
    destruct (truthy (field info "has_next_page")).
    + live H. lifted. known (page_info_field "end_cursor" P).
      cbv zeta. live H. split; [ | intros [_ C]; discriminate ].
      destruct (answers w (length (calls w))) as [r | x]; [ | discriminate ].
      lifted. destruct (unpack1 r); discriminate.
    + now split.
  - split; [ | intros [C _]; discriminate ].
    lifted. destruct (attachment_of e); [ discriminate | ]. res_step.
    live H. lifted. destruct (del_first_edge j (id o)); discriminate.
Qed.

Lemma pass_stops {self : addr} {o : thread_obj} {w : world} (data : strdict)
  {j : value} {info : list (value * value)} :
  nth_error (heap w) self = Some o ->
  holds j (id o) [] info ->
  truthy (field info "has_next_page") = false ->
  fetch_images_pass self data j w = (Ok Break, w).
Proof.
  intros H P T. unfold fetch_images_pass. live H. known (first_edge P).
  live H. lifted. known (page_info_field "has_next_page" P). now rewrite T.
Qed.

Lemma lookup_setitem_other (d : strdict) (k k2 : string) (v : value) :
  k2 <> k -> lookup (setitem d k v) k2 = lookup d k2.
Proof.
  intros N. induction d as [ | [k' v'] d IH]; cbn.
  - now apply String.eqb_neq in N as ->.
  - destruct (String.eqb_spec k k') as [-> | N']; cbn.
    + now apply String.eqb_neq in N as ->.
    + now rewrite IH.
Qed.

Lemma lookup_setitem_same (d : strdict) (k : string) (v : value) :
  lookup (setitem d k v) k = Some v.
Proof.
  induction d as [ | [k' v'] d IH]; cbn.
  - now rewrite String.eqb_refl.
  - destruct (String.eqb_spec k k') as [-> | N]; cbn.
    + now rewrite String.eqb_refl.
    + apply String.eqb_neq in N. now rewrite N.
Qed.

(** With fuel for every edge and every page, the loop yields the
    attachment of every edge, page after page, and ends. *)
Lemma loop_drains (self : addr) (o : thread_obj) (rest : list media_page) :
  forall (info : list (value * value)) (es : list value) (j : value) (data : strdict)
         (w : world) (fuel : nat) (atts : list attachment),
    nth_error (heap w) self = Some o ->
    (forall cursor,
        setitem data "after" cursor
        = [("id", PStr (id o)); ("first", PInt 48); ("after", cursor)]) ->
    holds j (id o) es info ->
    served (id o) (answers w) (length (calls w)) info rest ->
    attachments (all_edges es rest) atts ->
    length atts + length rest < fuel ->
    fetch_images_loop fuel self data j w
    = ((atts, Exhausted),
       mk_world (heap w) (answers w)
         (calls w ++ follow_ups (session o) (id o) info rest) (warnings w)).
Proof.
  induction rest as [ | [es' info'] rest IH]; intros info es;
    induction es as [ | e es IHes]; intros j data w fuel atts H D P Sv A F;
    (destruct fuel as [ | fuel]; [ lia | ]); cbn [fetch_images_loop];
    unfold gen_bind, all_edges in *.
  - inversion A; subst. rewrite (pass_stops data H P Sv). res_step. cbn.
    rewrite app_nil_r. now destruct w.
  - inversion A as [ | e0 a l atts' Ea A']; subst.
    destruct (pass_yields data H P Ea) as [j' [-> P']].
    unfold yield. res_step. cbn [length] in F.
    now rewrite (IHes j' data w fuel atts' H D P' Sv A' ltac:(cbn [length] in *; lia)).
  - destruct Sv as [T [r [j' [R [U [P' Sv']]]]]].
    rewrite (pass_continues data H P T R U). cbv zeta. rewrite D. res_step.
    cbn [app flat_map fst] in A. cbn [length] in F.
    rewrite (IH info' es' j'
               [("id", PStr (id o)); ("first", PInt 48); ("after", field info "end_cursor")]
               (called _ w) fuel atts H (fun _ => eq_refl) P').
    + cbn [follow_ups called heap answers calls warnings]. unfold images_query.
      now rewrite <- app_assoc.
    + cbn [called calls answers]. rewrite length_app, Nat.add_1_r. exact Sv'.
    + exact A.
    + cbn [length] in *. lia.
  - inversion A as [ | e0 a l atts' Ea A']; subst.
    destruct (pass_yields data H P Ea) as [j' [-> P']].
    unfold yield. res_step. cbn [length] in F.
    now rewrite (IHes j' data w fuel atts' H D P' Sv A' ltac:(cbn [length] in *; lia)).
Qed.

Lemma attachment_of_node (i : value) (node : list (value * value)) :
  getitem i (PStr "node") = Ok (PDict node) ->
  attachment_of i
  = Ok (if py_eq (field node "__typename") (PStr "MessageImage")
        then ImageAttachment_from_list i
        else if py_eq (field node "__typename") (PStr "MessageVideo")
             then VideoAttachment_from_list i
             else Attachment (field node "legacy_attachment_id")).
Proof.
  intros N. unfold attachment_of. rewrite N. res_step.
  rewrite !py_get_field. res_step.
  destruct (py_eq (field node "__typename") (PStr "MessageImage")); [ reflexivity | ].
  now destruct (py_eq (field node "__typename") (PStr "MessageVideo")).
Qed.

(** C4: the attachment of an edge is chosen by the [__typename] of its
    node; the loop of [fetch_images] ends normally exactly on a page without
    edges whose [has_next_page] is not true; on a page without edges whose
    [has_next_page] is true it sends the query "515216185516880" again, the
    data being as before but for [after], which is the end cursor of the
    page; and run against pages that end, the generator yields one
    attachment for each edge, in the order of the pages and of the edges,
    and is exhausted, having sent the query once with the thread's id and
    [first] = 48 and then once for each further page with, in addition,
    the end cursor of the page before it as [after]. *)
Theorem fetch_images_spec (self : addr) (o : thread_obj) (w : world) :
  nth_error (heap w) self = Some o ->
  (forall (i : value) (node : list (value * value)),
      getitem i (PStr "node") = Ok (PDict node) ->
      attachment_of i
      = Ok (if py_eq (field node "__typename") (PStr "MessageImage")
            then ImageAttachment_from_list i
            else if py_eq (field node "__typename") (PStr "MessageVideo")
                 then VideoAttachment_from_list i
                 else Attachment (field node "legacy_attachment_id"))) /\
  (forall (data : strdict) (j : value) (es : list value) (info : list (value * value)),
      holds j (id o) es info ->
      fst (fetch_images_pass self data j w) = Ok Break
      <-> es = [] /\ truthy (field info "has_next_page") = false) /\
  (forall (data : strdict) (j r j' : value) (info : list (value * value)),
      holds j (id o) [] info ->
      truthy (field info "has_next_page") = true ->
      answers w (length (calls w)) = Returns r ->
      unpack1 r = Ok j' ->
      exists data',
        fetch_images_pass self data j w
        = (Ok (Continue data' j'),
           called
             (Session (session o)
                (_graphql_requests (from_query_id "515216185516880" data')))
             w) /\
        lookup data' "after" = Some (field info "end_cursor") /\
        (forall k, k <> "after" -> lookup data' k = lookup data k)) /\
  (forall (fuel : nat) (r j : value) (es : list value) (info : list (value * value))
          (rest : list media_page) (atts : list attachment),
      answers w (length (calls w)) = Returns r ->
      unpack1 r = Ok j ->
      holds j (id o) es info ->
      served (id o) (answers w) (S (length (calls w))) info rest ->
      attachments (all_edges es rest) atts ->
      length atts + length rest < fuel ->
      fetch_images fuel self w
      = ((atts, Exhausted),
         mk_world (heap w) (answers w)
           (calls w ++
            Session (session o)
              (_graphql_requests
                 (from_query_id "515216185516880"
                    [("id", PStr (id o)); ("first", PInt 48)]))
              :: follow_ups (session o) (id o) info rest)
           (warnings w))).
Proof.
  intros H. split; [ | split; [ | split ] ].
  - apply attachment_of_node.
  - intros data j es info P. apply (pass_breaks data H P).
  - intros data j r j' info P T A U.
    exists (setitem data "after" (field info "end_cursor")).
    split; [ exact (pass_continues data H P T A U) | ].
    split; [ apply lookup_setitem_same | ].
    intros k N. now apply lookup_setitem_other.
  - intros fuel r j es info rest atts A U P Sv At F.
    unfold fetch_images. glive H. rewrite A. glive H. rewrite gen_bind_lift. known U.
    rewrite gen_bind_ret. cbn [fst snd].
    rewrite (loop_drains self o rest info es j [("id", PStr (id o)); ("first", PInt 48)]
               (called _ w) fuel atts H (fun _ => eq_refl) P).
    + cbn [called heap answers calls warnings]. unfold images_query.
      now rewrite <- app_assoc.
    + cbn [called calls answers]. now rewrite length_app, Nat.add_1_r.
    + exact At.
    + exact F.
Qed.

(** ** Customization info *)

Lemma index_of_nat (n len : nat) : n < len -> index_of len (Z.of_nat n) = Some n.
Proof.
  intros L. unfold index_of.
  destruct (Z.ltb_spec (Z.of_nat n) 0); [ lia | ].
  destruct (Z.leb_spec 0 (Z.of_nat n)); [ | lia ].
  destruct (Z.ltb_spec (Z.of_nat n) (Z.of_nat len)); [ | lia ].
  cbn [andb]. now rewrite Nat2Z.id.
Qed.

Lemma getitem_nth (l : list value) (n : nat) (x : value) :
  nth_error l n = Some x -> getitem (PList l) (PInt (Z.of_nat n)) = Ok x.
Proof.
  intros E. unfold getitem, seq_getitem. cbn [int_index].
  rewrite index_of_nat by (apply nth_error_Some; congruence).
  now rewrite E.
Qed.

Lemma has_key_setitem (d : strdict) (k k2 : string) (v : value) :
  has_key (setitem d k v) k2 = has_key d k2 || (k2 =? k).
Proof.
  unfold has_key. induction d as [ | [k' v'] d IH]; cbn.
  - now rewrite orb_false_r.
  - destruct (String.eqb_spec k k') as [-> | N]; cbn.
    + destruct (k2 =? k'); cbn; [ reflexivity | now rewrite orb_false_r ].
    + rewrite IH. now rewrite orb_assoc.
Qed.

Lemma py_eq_sym (a b : value) :
  hashable a = true -> hashable b = true -> py_eq a b = py_eq b a.
Proof.
  destruct a as [ | x | n | s | l | d]; destruct b as [ | y | m | t | l' | d'];
    cbn; try discriminate; intros _ _; try reflexivity.
  - now destruct x, y.
  - apply Z.eqb_sym.
  - apply Z.eqb_sym.
  - apply Z.eqb_sym.
  - apply String.eqb_sym.
Qed.

Lemma py_eq_trans (a b c : value) :
  hashable a = true -> hashable b = true -> hashable c = true ->
  py_eq a b = true -> py_eq b c = true -> py_eq a c = true.
Proof.
  destruct a as [ | x | n | s | l | d]; destruct b as [ | y | m | t | l' | d'];
    destruct c as [ | z | k | u | l'' | d'']; cbn; try discriminate;
    intros _ _ _ H1 H2; try reflexivity;
    repeat match goal with b : bool |- _ => destruct b end;
    unfold int_of_bool in *; cbn [Bool.eqb] in *; try discriminate;
    repeat match goal with
      | H : (_ =? _)%Z = true |- _ => apply Z.eqb_eq in H
      | H : (_ =? _) = true |- _ => apply String.eqb_eq in H
      end;
    subst; try discriminate;
    rewrite ?Z.eqb_refl, ?String.eqb_refl; reflexivity.
Qed.

Lemma keyed_insert (m : list (value * value)) (k v : value) :
  keyed m -> hashable k = true -> keyed (dict_insert m k v).
Proof.
  intros K Hk. induction K as [ | [k' v'] m Hk' K IH]; cbn -[py_eq].
  - repeat constructor. exact Hk.
  - destruct (py_eq k k'); constructor; assumption.
Qed.

Lemma dict_lookup_inserted (m : list (value * value)) (p k v : value) :
  keyed m -> hashable p = true -> hashable k = true ->
  dict_lookup p (dict_insert m k v)
  = if py_eq p k then Some v else dict_lookup p m.
Proof.
  intros K Hp Hk. induction K as [ | [k' v'] m Hk' K IH]; cbn -[py_eq].
  - reflexivity.
  - cbn [fst] in Hk'. destruct (py_eq k k') eqn:E; cbn -[py_eq].
    + destruct (py_eq p k') eqn:E'.
      * rewrite (py_eq_sym k k' Hk Hk') in E.
        now rewrite (py_eq_trans p k' k Hp Hk' Hk E' E).
      * destruct (py_eq p k) eqn:E''; [ | reflexivity ].
        now rewrite (py_eq_trans p k k' Hp Hk Hk' E'' E) in E'.
    + rewrite IH. destruct (py_eq p k') eqn:E'; [ | reflexivity ].
      destruct (py_eq p k) eqn:E''; [ | reflexivity ].
      rewrite (py_eq_sym p k Hp Hk) in E''.
      now rewrite (py_eq_trans k p k' Hk Hp Hk' E'' E') in E.
Qed.

(** Looking a participant up in the mapping gives the nickname of the last
    entry for that participant. *)
Lemma nickname_map_lookup (entries : list (value * value)) (p : value) :
  Forall (fun e => hashable (fst e) = true) entries ->
  hashable p = true ->
  dict_lookup p (nickname_map entries) = last_nickname p entries.
Proof.
  intros F Hp. unfold nickname_map, last_nickname.
  assert (G : forall m,
             keyed m ->
             dict_lookup p (fold_left (fun m e => dict_insert m (fst e) (snd e)) entries m)
             = fold_left (fun found e => if py_eq p (fst e) then Some (snd e) else found)
                 entries (dict_lookup p m)).
  { induction F as [ | e entries He F IH]; intros m K; cbn [fold_left].
    - reflexivity.
    - rewrite IH by now apply keyed_insert.
      now rewrite dict_lookup_inserted. }
  apply (G []). constructor.
Qed.

Lemma nicknames_loop_entries (ks : list value) (entries : list (value * value)) :
  Forall2 nickname_entry ks entries ->
  forall m,
    nicknames_loop ks m
    = Ok (fold_left (fun m e => dict_insert m (fst e) (snd e)) entries m).
Proof.
  induction 1 as [ | k e ks entries [P [N Hh]] _ IH]; intros m; cbn [nicknames_loop fold_left].
  - reflexivity.
  - rewrite N. res_step. rewrite P. res_step. unfold dict_setitem. rewrite Hh.
    res_step. apply IH.
Qed.

Lemma store_nickname_entry (rtn : strdict) (k : list (value * value)) (user_id : value) :
  store_nickname rtn (PDict k) user_id = Ok (store_entry user_id rtn k).
Proof.
  unfold store_nickname, nickname_key, store_entry.
  rewrite !py_get_field. now res_step.
Qed.

Lemma store_two_nicknames (pc : list value) (ks : list (list (value * value)))
  (user_id : value) (rtn : strdict) :
  firstn 2 pc = map PDict ks ->
  (rtn <~ store_nth_nickname 0 (PList pc) user_id rtn ;
   store_nth_nickname 1 (PList pc) user_id rtn)%res
  = Ok (fold_left (store_entry user_id) ks rtn).
Proof.
  intros E. unfold store_nth_nickname. cbn [py_len]. res_step.
  destruct pc as [ | k0 [ | k1 pc]]; destruct ks as [ | d0 [ | d1 ks]];
    try discriminate E; cbn [firstn map] in E.
  - reflexivity.
  - injection E as ->. cbn [length Nat.ltb Nat.leb].
    rewrite (getitem_nth [PDict d0] 0 _ eq_refl). res_step.
    rewrite store_nickname_entry. now res_step.
  - injection E as -> -> E. destruct ks; [ | discriminate ].
    cbn [length Nat.ltb Nat.leb].
    rewrite (getitem_nth (PDict d0 :: PDict d1 :: pc) 0 _ eq_refl). res_step.
    rewrite store_nickname_entry. res_step.
    rewrite (getitem_nth (PDict d0 :: PDict d1 :: pc) 1 _ eq_refl). res_step.
    rewrite store_nickname_entry. now res_step.
Qed.

Lemma store_nth_same_base (n : nat) (pc user_id : value) (r r' : strdict) :
  store_nth_nickname n pc user_id r = Ok r' -> same_base r r'.
Proof.
  unfold store_nth_nickname. destruct (py_len pc) as [ | len]; [ discriminate | ].
  res_step. destruct (n <? len)%nat.
  - destruct (getitem pc (PInt (Z.of_nat n))) as [ | entry]; [ discriminate | ].
    res_step. unfold store_nickname, nickname_key.
    destruct (py_get entry "participant_id" PNone) as [ | pid]; [ discriminate | ].
    res_step. destruct (py_get entry "nickname" PNone) as [ | nick]; [ discriminate | ].
    res_step. intros E. injection E as <-. unfold same_base.
    rewrite has_key_setitem.
    destruct (py_eq pid user_id);
      (rewrite !lookup_setitem_other by discriminate); now rewrite orb_false_r.
  - intros E. injection E as <-. now repeat split.
Qed.

Lemma parse_customization_start (d : list (value * value)) :
  truthy (field d "customization_info") = true ->
  _parse_customization_info (PDict d)
  = (let info := field d "customization_info" in
     emoji <~ py_get info "emoji" PNone ;
     bubble <~ py_get info "outgoing_bubble_color" PNone ;
     color <~ _parse_color bubble ;
     let rtn := [("emoji", emoji); ("color", PStr color)] in
     group <~ is_group (PDict d) ;
     if group then
       pcs <~ py_get info "participant_customizations" (PList []) ;
       ks <~ py_iter pcs ;
       nicknames <~ nicknames_loop ks [] ;
       Ok (setitem rtn "nicknames" (PDict nicknames))
     else
       pcs <~ py_get info "participant_customizations" PNone ;
       if truthy pcs then
         user_id <~ other_user_id (PDict d) ;
         pc <~ getitem info (PStr "participant_customizations") ;
         rtn <~ store_nth_nickname 0 pc user_id rtn ;
         store_nth_nickname 1 pc user_id rtn
       else Ok rtn)%res.
Proof.
  intros T. unfold _parse_customization_info.
  assert (L : dict_lookup (PStr "customization_info") d
              = Some (field d "customization_info")).
  { unfold field in *. now destruct (dict_lookup (PStr "customization_info") d). }
  destruct d as [ | kv d]; [ discriminate | ].
  cbn [truthy negb]. rewrite py_get_field. res_step. rewrite T. cbn [negb].
  cbn [getitem hashable]. now rewrite L.
Qed.

(** The group test of the code finds the marks of a group. *)
Lemma is_group_marked (d : list (value * value)) :
  marks_group d = true -> is_group (PDict d) = Ok true.
Proof.
  unfold marks_group, is_group, thread_key_of. rewrite py_get_field. res_step.
  destruct (py_eq (field d "thread_type") (PStr "GROUP")); [ reflexivity | ].
  rewrite py_get_field. res_step.
  destruct (truthy (field d "is_group_thread")); [ reflexivity | ].
  cbn [orb py_get].
  destruct (dict_lookup (PStr "thread_key") d) as [[ | b | n | s | l | k] | ];
    try discriminate.
  - res_step. rewrite py_get_field. res_step. intros E. now rewrite E.
Qed.

Lemma is_group_keyed (d k : list (value * value)) :
  thread_key_of d = Some k -> is_group (PDict d) = Ok (marks_group d).
Proof.
  unfold marks_group, is_group, thread_key_of. rewrite py_get_field. res_step.
  destruct (py_eq (field d "thread_type") (PStr "GROUP")); [ reflexivity | ].
  rewrite py_get_field. res_step.
  destruct (truthy (field d "is_group_thread")); [ reflexivity | ].
  cbn [orb py_get].
  destruct (dict_lookup (PStr "thread_key") d) as [[ | b | n | s | l | k'] | ];
    try discriminate.
  - intros _. res_step. rewrite py_get_field. now res_step.
  - reflexivity.
Qed.

Lemma is_group_ok (d : list (value * value)) (group : bool) :
  is_group (PDict d) = Ok group -> group = marks_group d.
Proof.
  unfold marks_group, is_group, thread_key_of. rewrite py_get_field. res_step.
  destruct (py_eq (field d "thread_type") (PStr "GROUP"));
    [ intros E; now injection E | ].
  rewrite py_get_field. res_step.
  destruct (truthy (field d "is_group_thread")); [ intros E; now injection E | ].
  cbn [orb py_get].
  destruct (dict_lookup (PStr "thread_key") d) as [[ | b | n | s | l | k] | ];
    try discriminate.
  - res_step. rewrite py_get_field. res_step. intros E. now injection E.
  - intros E. now injection E.
Qed.

Lemma other_user_id_keyed (d k : list (value * value)) :
  thread_key_of d = Some k -> other_user_id (PDict d) = Ok (other_user d k).
Proof.
  unfold other_user_id, other_user, thread_key_of. cbn [py_get].
  destruct (dict_lookup (PStr "thread_key") d) as [[ | b | n | s | l | k'] | ];
    try discriminate; intros E; injection E as <-; res_step.
  - rewrite py_get_field. res_step.
    destruct (truthy (field k' "other_user_id")); [ reflexivity | ].
    fold (py_get (PDict d) "id" PNone). apply py_get_field.
  - cbn. fold (py_get (PDict d) "id" PNone). apply py_get_field.
Qed.

(** C5: [_parse_customization_info] gives no emoji and the color "#0084ff"
    for falsy data and for data whose [customization_info] is missing or
    falsy.  Otherwise a result has the emoji of the info and the parsed
    bubble color, and has [nicknames] exactly when the data marks a group:
    by the thread type "GROUP", by a truthy [is_group_thread], or by a
    thread key with a truthy [thread_fbid].  For a group it is the mapping
    from participant id to nickname (a later entry for a participant
    replaces an earlier one), and for other data the nicknames of the first
    two customizations are stored under [nickname] or [own_nickname] by
    comparing the participant id with the other user's id, which is the
    [other_user_id] of the thread key if that is truthy and the [id] of
    the data otherwise. *)
Theorem parse_customization_info_spec :
  (forall data : value,
      truthy data = false ->
      _parse_customization_info data
      = Ok [("emoji", PNone); ("color", PStr "#0084ff")]) /\
  (forall d : list (value * value),
      truthy (field d "customization_info") = false ->
      _parse_customization_info (PDict d)
      = Ok [("emoji", PNone); ("color", PStr "#0084ff")]) /\
  (forall (d : list (value * value)) (rtn : strdict),
      truthy (field d "customization_info") = true ->
      _parse_customization_info (PDict d) = Ok rtn ->
      exists info color,
        field d "customization_info" = PDict info /\
        _parse_color (field info "outgoing_bubble_color") = Ok color /\
        lookup rtn "emoji" = Some (field info "emoji") /\
        lookup rtn "color" = Some (PStr color) /\
        has_key rtn "nicknames" = marks_group d) /\
  (forall (d info : list (value * value)) (color : string) (pcs : value)
          (ks : list value) (entries : list (value * value)),
      field d "customization_info" = PDict info ->
      info <> [] ->
      _parse_color (field info "outgoing_bubble_color") = Ok color ->
      marks_group d = true ->
      py_get (PDict info) "participant_customizations" (PList []) = Ok pcs ->
      py_iter pcs = Ok ks ->
      Forall2 nickname_entry ks entries ->
      _parse_customization_info (PDict d)
      = Ok (base_customization info color
              ++ [("nicknames", PDict (nickname_map entries))])%list /\
      (forall p : value,
          hashable p = true ->
          dict_lookup p (nickname_map entries) = last_nickname p entries)) /\
  (forall (d info k : list (value * value)) (color : string),
      field d "customization_info" = PDict info ->
      info <> [] ->
      _parse_color (field info "outgoing_bubble_color") = Ok color ->
      marks_group d = false ->
      thread_key_of d = Some k ->
      (truthy (field info "participant_customizations") = false ->
       _parse_customization_info (PDict d) = Ok (base_customization info color)) /\
      (forall (pc : list value) (ks : list (list (value * value))),
          field info "participant_customizations" = PList pc ->
          pc <> [] ->
          firstn 2 pc = map PDict ks ->
          _parse_customization_info (PDict d)
          = Ok (fold_left (store_entry (other_user d k)) ks
                  (base_customization info color)))).
Proof.
  assert (TI : forall info : list (value * value), info <> [] -> truthy (PDict info) = true)
    by (intros [ | kv info] N; [ contradiction | reflexivity ]).
  split; [ | split; [ | split; [ | split ] ] ].
  - intros data T. unfold _parse_customization_info. now rewrite T.
  - intros d T. unfold _parse_customization_info.
    destruct (truthy (PDict d)); [ | reflexivity ]. cbn [negb].
    rewrite py_get_field. res_step. now rewrite T.
  - intros d rtn T. rewrite (parse_customization_start d T). cbv zeta.
    destruct (field d "customization_info") as [ | b | n | s | l | info];
      try discriminate.
    rewrite !py_get_field. res_step.
    destruct (_parse_color (field info "outgoing_bubble_color")) as [ | color] eqn:C;
      [ discriminate | ].
    res_step. destruct (is_group (PDict d)) as [ | group] eqn:G; [ discriminate | ].
    res_step. intros E. exists info, color.
    do 2 (split; [ first [ reflexivity | assumption ] | ]).
    rewrite <- (is_group_ok d group G).
    destruct group.
    + destruct (py_get (PDict info) "participant_customizations" (PList []))
        as [ | pcs]; [ discriminate | ].
      cbv beta iota in E.
      destruct (py_iter pcs) as [ | ks]; [ discriminate | ]. cbv beta iota in E.
      destruct (nicknames_loop ks []) as [ | nicknames]; [ discriminate | ].
      injection E as <-. now repeat split.
    + cbv beta iota in E. destruct (truthy (field info "participant_customizations")).
      * destruct (other_user_id (PDict d)) as [ | user_id]; [ discriminate | ].
        cbv beta iota in E.
        destruct (getitem (PDict info) (PStr "participant_customizations"))
          as [ | pc]; [ discriminate | ].
        cbv beta iota in E.
        destruct (store_nth_nickname 0 pc user_id
                    [("emoji", field info "emoji"); ("color", PStr color)])
          as [ | rtn0] eqn:E0; [ discriminate | ].
        apply store_nth_same_base in E0, E.
        destruct E0 as [A0 [B0 C0]], E as [A1 [B1 C1]].
        rewrite A1, B1, C1, A0, B0, C0. now repeat split.
      * injection E as <-. now repeat split.
  - intros d info color pcs ks entries I N C G P K F.
    apply is_group_marked in G. split.
    + rewrite parse_customization_start by (rewrite I; now apply TI).
      cbv zeta. rewrite I, !py_get_field. res_step. rewrite C. res_step.
      rewrite G. res_step. rewrite P. res_step. rewrite K. res_step.
      rewrite (nicknames_loop_entries ks entries F). now res_step.
    + intros p Hp. apply nickname_map_lookup; [ | exact Hp ].
      clear - F. induction F as [ | k e ks entries [_ [_ Hh]] _ IH]; now constructor.
  - intros d info k color I N C G K.
    pose proof (other_user_id_keyed d k K) as U.
    apply is_group_keyed in K. rewrite G in K. clear G. rename K into G.
    assert (S : _parse_customization_info (PDict d)
                = (pcs <~ Ok (field info "participant_customizations") ;
                   if truthy pcs then
                     user_id <~ other_user_id (PDict d) ;
                     pc <~ getitem (PDict info) (PStr "participant_customizations") ;
                     rtn <~ store_nth_nickname 0 pc user_id (base_customization info color) ;
                     store_nth_nickname 1 pc user_id rtn
                   else Ok (base_customization info color))%res).
    { rewrite parse_customization_start by (rewrite I; now apply TI).
      cbv zeta. rewrite I, !py_get_field. res_step. rewrite C. res_step.
      now rewrite G. }
    rewrite S. res_step. split.
    + now intros ->.
    + intros pc ks P Np F. rewrite P.
      destruct pc as [ | k0 pc]; [ contradiction | ]. cbn [truthy].
      rewrite U. res_step.
      assert (L : getitem (PDict info) (PStr "participant_customizations")
                  = Ok (PList (k0 :: pc))).
      { unfold field in P. cbn [getitem hashable].
        now destruct (dict_lookup (PStr "participant_customizations") info);
          [ rewrite P | discriminate ]. }
      rewrite L. res_step.
      exact (store_two_nicknames (k0 :: pc) ks (other_user d k) _ F).
Qed.

(** * Further properties *)

(** ** Colors that are refused *)

(** X1: [set_color] refuses a string outside [SETABLE_COLORS] before it
    reads the thread or reaches the session: the world is as it was.  The
    test is on the exact string: the upper-case form of each settable color
    is refused, although [_parse_color] would lower it. *)
Theorem set_color_refuses_first :
  (forall (self : addr) (color : string) (w : world),
      ~ In color SETABLE_COLORS ->
      set_color self color w = (Raise ValueError, w)) /\
  Forall
    (fun c =>
       forall (self : addr) (w : world),
         _parse_color (PStr ("FF" ++ drop_chars 1 (ascii_upper c))) = Ok c /\
         set_color self (ascii_upper c) w = (Raise ValueError, w))
    SETABLE_COLORS.
Proof.
  split.
  - intros self color w N. unfold set_color.
    destruct (in_tuple color SETABLE_COLORS) eqn:E; [ | reflexivity ].
    apply in_tuple_In in E. contradiction.
  - repeat constructor.
Qed.

(** ** Methods that forget the answer *)

(** Proves that a method posts its payload and forgets the answer. *)
Ltac forgets :=
  let w := fresh "w" in
  let H := fresh "H" in
  intros w H; cbv zeta; live H;
  now destruct (answers w (length (calls w))).

(** X2: [set_nickname], [set_emoji], [set_color] with a settable color,
    [mute], the typing and the muting switches and [mark_as_spam] each post
    one payload and never look at the answer: they return [None] whatever
    the session returns, an error report included, and raise only what the
    session raises.  The switches post "1" to turn on and "0" to turn
    off. *)
Theorem setters_forget_the_answer (self : addr) (o : thread_obj) :
  (forall user_id nickname : string,
      posts_and_forgets (set_nickname self user_id nickname) self o
        "/messaging/save_thread_nickname/?source=thread_settings&dpr=1"
        [ ("nickname", PStr nickname);
          ("participant_id", PStr user_id);
          ("thread_or_other_fbid", PStr (id o)) ]) /\
  (forall emoji : string,
      posts_and_forgets (set_emoji self emoji) self o
        "/messaging/save_thread_emoji/?source=thread_settings&dpr=1"
        [("emoji_choice", PStr emoji); ("thread_or_other_fbid", PStr (id o))]) /\
  (forall color : string,
      In color SETABLE_COLORS ->
      posts_and_forgets (set_color self color) self o save_thread_color
        [ ("color_choice", PStr (if color =? DEFAULT_COLOR then "" else color));
          ("thread_or_other_fbid", PStr (id o)) ]) /\
  (forall duration : option timedelta,
      posts_and_forgets (mute self duration) self o change_mute_thread
        (mute_payload
           (match duration with
            | None => "-1"
            | Some d => str_int (timedelta_to_seconds d)
            end) (id o))) /\
  (forall on : bool,
      posts_and_forgets (if on then start_typing self else stop_typing self) self o
        "/ajax/messaging/typ.php"
        [ ("typ", PStr (if on then "1" else "0"));
          ("thread", PStr (id o));
          ("source", PStr "mercury-chat") ]) /\
  (forall on : bool,
      posts_and_forgets (if on then mute_reactions self else unmute_reactions self)
        self o "/ajax/mercury/change_reactions_mute_thread/?dpr=1"
        (flag_payload "reactions_mute_mode" on "thread_fbid" (id o))) /\
  (forall on : bool,
      posts_and_forgets (if on then mute_mentions self else unmute_mentions self)
        self o "/ajax/mercury/change_mentions_mute_thread/?dpr=1"
        (flag_payload "mentions_mute_mode" on "thread_fbid" (id o))) /\
  posts_and_forgets (mark_as_spam self) self o "/ajax/mercury/mark_spam.php?dpr=1"
    [("id", PStr (id o))].
Proof.
  repeat split.
  - intros user_id nickname. unfold set_nickname. forgets.
  - intros emoji. unfold set_emoji. forgets.
  - intros color I. apply in_tuple_In in I. unfold set_color. rewrite I.
    cbn [negb]. forgets.
  - intros duration. unfold mute. forgets.
  - intros [ | ]; unfold start_typing, stop_typing, _set_typing; forgets.
  - intros [ | ]; unfold mute_reactions, unmute_reactions, _mute_reactions; forgets.
  - intros [ | ]; unfold mute_mentions, unmute_mentions, _mute_mentions; forgets.
  - unfold mark_as_spam. forgets.
Qed.

(** ** Forwarding an attachment *)

(** X3: [forward_attachment] asks for an offline threading id, then posts
    the attachment id and the thread under [recipient_map[<that id>]].  On
    a mapping as answer it returns when [success] is truthy; otherwise it
    raises [FBchatFacebookError] with the [error] of the answer, or
    [KeyError] when the answer has no [error]. *)
Theorem forward_attachment_spec (self : addr) (o : thread_obj) (attachment_id otid : value)
  (j : list (value * value)) (w : world) :
  nth_error (heap w) self = Some o ->
  answers w (length (calls w)) = Returns otid ->
  answers w (S (length (calls w))) = Returns (PDict j) ->
  forward_attachment self attachment_id w
  = (if truthy (field j "success") then Ok tt
     else match dict_lookup (PStr "error") j with
          | Some err => Raise (FBchatFacebookError err)
          | None => Raise KeyError
          end,
     called
       (Session (session o)
          (_payload_post "/mercury/attachments/forward/"
             [ ("attachment_id", attachment_id);
               ("recipient_map[" ++ py_str otid ++ "]", PStr (id o)) ]))
       (called generate_offline_threading_id w)).
Proof.
  intros H A1 A2. unfold forward_attachment.
  assert (E : external generate_offline_threading_id w
              = (Ok otid, called generate_offline_threading_id w))
    by (unfold external; now rewrite A1).
  rewrite (bind_ok _ E). live H.
  replace (answers (called generate_offline_threading_id w)
             (length (calls (called generate_offline_threading_id w))))
    with (Returns (PDict j))
    by (cbn [called calls answers]; now rewrite length_app, Nat.add_1_r).
  lifted. rewrite py_get_field. res_step.
  destruct (truthy (field j "success")); cbn [negb]; [ reflexivity | ].
  lifted. cbn [getitem hashable].
  now destruct (dict_lookup (PStr "error") j).
Qed.

(** ** Plain failures *)

Lemma getitem_fails_plainly (v k : value) : fails_plainly (getitem v k).
Proof.
  intros e. destruct v as [ | b | n | s | l | d]; cbn -[py_eq];
    unfold seq_getitem;
    repeat match goal with
      | |- context [match ?x with _ => _ end] => destruct x
      end;
    unfold Raise, Ok; intros E; try discriminate; now injection E as <-.
Qed.

Lemma py_get_fails_plainly (v : value) (k : string) (d : value) :
  fails_plainly (py_get v k d).
Proof.
  intros e. destruct v; cbn -[py_eq];
    repeat match goal with
      | |- context [match ?x with _ => _ end] => destruct x
      end;
    unfold Raise, Ok; intros E; try discriminate; now injection E as <-.
Qed.

Lemma py_iter_fails_plainly (v : value) : fails_plainly (py_iter v).
Proof.
  intros e. destruct v; cbn; unfold Raise, Ok; intros E; try discriminate;
    now injection E as <-.
Qed.

Lemma rbind_fails_plainly {A B} (r : res A) (k : A -> res B) :
  fails_plainly r -> (forall a, fails_plainly (k a)) -> fails_plainly (rbind r k).
Proof.
  intros Hr Hk e. destruct r as [e' | a]; cbn.
  - intros E. injection E as <-. now apply Hr.
  - apply Hk.
Qed.

(** Shows that a chain of builtin operations fails plainly. *)
Ltac plainly :=
  repeat first
    [ apply getitem_fails_plainly
    | apply py_get_fails_plainly
    | apply py_iter_fails_plainly
    | apply rbind_fails_plainly; [ | intros ] ].

(** ** Messages of a thread that cannot be fetched *)

(** X4: when the answer to [fetch_messages] is one mapping, the method
    raises [FBchatException] exactly if [message_thread] is missing or
    [None] in it; it has then made its one request and has created no
    thread object. *)
Theorem fetch_messages_missing_thread (self : addr) (o : thread_obj) (limit : Z)
  (before : option datetime) (r : value) (j : list (value * value)) (w : world) :
  nth_error (heap w) self = Some o ->
  answers w (length (calls w)) = Returns r ->
  unpack1 r = Ok (PDict j) ->
  let params :=
    [ ("id", PStr (id o));
      ("message_limit", PInt limit);
      ("load_messages", PBool true);
      ("load_read_receipts", PBool true);
      ("before", match before with
                 | Some b => PInt (datetime_to_millis b)
                 | None => PNone
                 end) ] in
  let w' :=
    called (Session (session o)
              (_graphql_requests (from_doc_id "1860982147341344" params))) w in
  (field j "message_thread" = PNone ->
   fetch_messages self limit before w = (Raise FBchatException, w')) /\
  (fst (fetch_messages self limit before w) = Raise FBchatException ->
   field j "message_thread" = PNone).
Proof.
  intros H A U params w'. unfold fetch_messages. cbv zeta. live H. rewrite A.
  lifted. known U. lifted. rewrite py_get_field. res_step. split.
  - intros ->. cbn [is_none]. now live H.
  - destruct (field j "message_thread") as [ | b | n | s | l | d] eqn:F;
      [ reflexivity | | | | | ]; cbn [is_none]; intros E; exfalso; revert E;
      lifted;
      (match goal with
       | |- context [match ?rr with inl _ => _ | inr _ => _ end] =>
           let X := fresh "X" in
           destruct rr as [e | read_receipts] eqn:X;
           [ intros E; injection E as ->;
             assert (P : fails_plainly (@inl exn value FBchatException))
               by (rewrite <- X; plainly);
             now specialize (P _ eq_refl)
           | ]
       end);
      live H; rewrite bind_construct; lifted;
      (match goal with
       | |- context [match ?ns with inl _ => _ | inr _ => _ end] =>
           let X := fresh "X" in
           destruct ns as [e | nodes] eqn:X;
           [ intros E; injection E as ->;
             assert (P : fails_plainly (@inl exn (list value) FBchatException))
               by (rewrite <- X; plainly);
             now specialize (P _ eq_refl)
           | discriminate ]
       end).
Qed.

(** ** One result of a query *)

(** X5: [_forced_fetch] asks for the message by the thread id and the
    message id and returns the one result; for no result or for several it
    raises [ValueError], the request being made. *)
Theorem forced_fetch_spec (self : addr) (o : thread_obj) (message_id : string)
  (l : list value) (w : world) :
  nth_error (heap w) self = Some o ->
  answers w (length (calls w)) = Returns (PList l) ->
  _forced_fetch self message_id w
  = (match l with
     | [j] => Ok j
     | _ => Raise ValueError
     end,
     called
       (Session (session o)
          (_graphql_requests
             (from_doc_id "1768656253222505"
                [("thread_and_message_id",
                  PDict [ (PStr "thread_id", PStr (id o));
                          (PStr "message_id", PStr message_id) ])])))
       w).
Proof.
  intros H A. unfold _forced_fetch. cbv zeta. live H. rewrite A.
  now destruct l as [ | j [ | j' l]].
Qed.

(** ** What the send methods post *)

Lemma has_key_kept (d : strdict) (k k2 : string) (v : value) :
  has_key d k2 = true -> has_key (setitem d k v) k2 = true.
Proof. intros H. now rewrite has_key_setitem, H. Qed.

Lemma to_send_data_addressed (self : addr) {o : thread_obj} {w : world} {B}
  (k : strdict -> M B) :
  nth_error (heap w) self = Some o ->
  cls o <> ClsThread ->
  bind (_to_send_data self) k w = k (subclass_to_send_data (cls o) (id o)) w.
Proof.
  intros H C. apply bind_ok. unfold _to_send_data.
  rewrite (bind_ok _ (deref_live self H)). now destruct (cls o).
Qed.

(** Finds a field set by one of a chain of [setitem]. *)
Ltac found :=
  rewrite ?lookup_setitem_other by discriminate; apply lookup_setitem_same.

(** X6: on an object of a subclass, [wave], [send_emoji], [send_sticker],
    [send_location] and [send_pinned_location] each make one send request.
    Its payload has every key of the subclass's addressing fields, has
    [action_type] set to a user-generated message whatever those fields
    said, and carries the method's own fields: the state and type of the
    wave, the emoji and its lowered size name, the sticker id, or the
    coordinates with the flag of a current location. *)
Theorem send_methods_post (self : addr) (o : thread_obj) (w : world) :
  nth_error (heap w) self = Some o ->
  cls o <> ClsThread ->
  let base := subclass_to_send_data (cls o) (id o) in
  (forall first : bool,
      sends (wave self first) (session o) base w
        (fun data =>
           lookup data "lightweight_action_attachment[lwa_state]"
           = Some (PStr (if first then "INITIATED" else "RECIPROCATED")) /\
           lookup data "lightweight_action_attachment[lwa_type]" = Some (PStr "WAVE"))) /\
  (forall (emoji : string) (size : EmojiSize),
      sends (send_emoji self emoji size) (session o) base w
        (fun data =>
           lookup data "body" = Some (PStr emoji) /\
           lookup data "tags[0]"
           = Some (PStr ("hot_emoji_size:" ++ lower (EmojiSize_name size))))) /\
  (forall sticker_id : string,
      sends (send_sticker self sticker_id) (session o) base w
        (fun data => lookup data "sticker_id" = Some (PStr sticker_id))) /\
  (forall (current : bool) (latitude longitude : value),
      sends (if current then send_location self latitude longitude
             else send_pinned_location self latitude longitude) (session o) base w
        (fun data =>
           lookup data "location_attachment[coordinates][latitude]" = Some latitude /\
           lookup data "location_attachment[coordinates][longitude]" = Some longitude /\
           lookup data "location_attachment[is_current_location]"
           = Some (PBool current))).
Proof.
  intros H C base.
  assert (L : forall current latitude longitude,
             sends (_send_location self current latitude longitude) (session o) base w
               (fun data =>
                  lookup data "location_attachment[coordinates][latitude]"
                  = Some latitude /\
                  lookup data "location_attachment[coordinates][longitude]"
                  = Some longitude /\
                  lookup data "location_attachment[is_current_location]"
                  = Some (PBool current))).
  { intros current latitude longitude. unfold sends, _send_location.
    rewrite (to_send_data_addressed self _ H C). cbv zeta. fold base.
    eexists. split; [ | split; [ | split; [ | split; [ | split ] ] ] ].
    - rewrite (session_call_live self _ H), external_calls. reflexivity.
    - found.
    - intros k K. now repeat apply has_key_kept.
    - found.
    - found.
    - found. }
  split; [ | split; [ | split ] ].
  - intros first. unfold sends, wave. rewrite (to_send_data_addressed self _ H C).
    cbv zeta. fold base. live H.
    eexists. split; [ | split; [ | split; [ | split ] ] ].
    + destruct (answers w (length (calls w))) as [r | e]; [ | reflexivity ].
      lifted. destruct (unpack2 r); reflexivity.
    + found.
    + intros k K. now repeat apply has_key_kept.
    + found.
    + found.
  - intros emoji size. unfold sends, send_emoji.
    rewrite (to_send_data_addressed self _ H C). cbv zeta. fold base.
    eexists. split; [ | split; [ | split; [ | split ] ] ].
    + rewrite (session_call_live self _ H), external_calls. reflexivity.
    + found.
    + intros k K. now repeat apply has_key_kept.
    + found.
    + found.
  - intros sticker_id. unfold sends, send_sticker.
    rewrite (to_send_data_addressed self _ H C). cbv zeta. fold base.
    eexists. split; [ | split; [ | split ] ].
    + rewrite (session_call_live self _ H), external_calls. reflexivity.
    + found.
    + intros k K. now repeat apply has_key_kept.
    + found.
  - intros current latitude longitude.
    destruct (L current latitude longitude) as [data [Cs R]].
    exists data. split; [ | exact R ]. rewrite <- Cs.
    destruct current; unfold send_location, send_pinned_location, bind;
      now destruct (_send_location self _ latitude longitude w) as [[e | v] w1].
Qed.

(** X7: [wave] returns the first of the two values that the session gives
    back, and raises [ValueError] when the session gives back a sequence of
    another length. *)
Theorem wave_returns_message_id (self : addr) (o : thread_obj) (first : bool)
  (l : list value) (w : world) :
  nth_error (heap w) self = Some o ->
  cls o <> ClsThread ->
  answers w (length (calls w)) = Returns (PList l) ->
  fst (wave self first w)
  = match l with
    | [message_id; _] => Ok message_id
    | _ => Raise ValueError
    end.
Proof.
  intros H C A. unfold wave. rewrite (to_send_data_addressed self _ H C).
  cbv zeta. live H. rewrite A. lifted.
  now destruct l as [ | a [ | b [ | c l]]].
Qed.

(** ** What [send_text] posts *)






(** ** The shape of a parsed color *)

Lemma lower_char_idempotent (c : ascii) : lower_char (lower_char c) = lower_char c.
Proof. destruct c as [[] [] [] [] [] [] [] []]; reflexivity. Qed.

Lemma lower_idempotent (s : string) : lower (lower s) = lower s.
Proof.
  induction s as [ | c s IH]; cbn.
  - reflexivity.
  - now rewrite lower_char_idempotent, IH.
Qed.

Lemma length_lower (s : string) : String.length (lower s) = String.length s.
Proof. induction s as [ | c s IH]; cbn; congruence. Qed.

Lemma length_drop_chars (n : nat) (s : string) :
  String.length (drop_chars n s) = String.length s - n.
Proof.
  revert s. induction n as [ | n IH]; intros [ | c s]; cbn; try reflexivity.
  apply IH.
Qed.

(** X9: on a non-empty string of code points below 256 (the strings of
    this model; on these [str.lower] keeps the length, as it does not on
    U+0130) [_parse_color] never fails: it gives "#" and then as many
    characters as the string has beyond its first two (none for a string of
    one or two characters), and lowering them again changes nothing.  A
    number that is not zero and [True] make it raise [TypeError], since
    they cannot be sliced, and a non-empty list makes it raise
    [AttributeError], since its slice has no [lower]. *)
Theorem parse_color_shape :
  (forall (a : ascii) (s : string),
      exists t,
        _parse_color (PStr (String a s)) = Ok ("#" ++ t) /\
        String.length t = String.length s - 1 /\
        lower t = t) /\
  (forall n : Z, truthy (PInt n) = true -> _parse_color (PInt n) = Raise TypeError) /\
  _parse_color (PBool true) = Raise TypeError /\
  (forall (x : value) (l : list value),
      _parse_color (PList (x :: l)) = Raise AttributeError).
Proof.
  split; [ | split; [ | split ] ].
  - intros a s. exists (lower (drop_chars 2 (String a s))). repeat split.
    + rewrite length_lower, length_drop_chars. cbn. lia.
    + apply lower_idempotent.
  - intros n T. unfold _parse_color. now rewrite T.
  - reflexivity.
  - reflexivity.
Qed.

(** ** Customizations that are [None] *)

(** X10: for data with customization info and a color that parses, a
    missing [participant_customizations] gives a group no nicknames and a
    one-to-one thread no nickname; one that is present and [None] is passed
    over for a one-to-one thread but makes the parse of a group raise
    [TypeError]. *)
Theorem customizations_missing_or_none (d info : list (value * value))
  (color : string) (group : bool) :
  field d "customization_info" = PDict info ->
  info <> [] ->
  _parse_color (field info "outgoing_bubble_color") = Ok color ->
  is_group (PDict d) = Ok group ->
  (dict_lookup (PStr "participant_customizations") info = None ->
   _parse_customization_info (PDict d)
   = Ok (if group
         then (base_customization info color ++ [("nicknames", PDict [])])%list
         else base_customization info color)) /\
  (dict_lookup (PStr "participant_customizations") info = Some PNone ->
   _parse_customization_info (PDict d)
   = if group then Raise TypeError else Ok (base_customization info color)).
Proof.
  intros I N C G.
  assert (T : truthy (field d "customization_info") = true)
    by (rewrite I; destruct info; [ contradiction | reflexivity ]).
  rewrite (parse_customization_start d T). cbv zeta.
  rewrite I, !py_get_field. res_step. rewrite C. res_step. rewrite G. res_step.
  unfold field. cbn [py_get].
  split; intros ->; now destruct group.
Qed.

(** X11: the group test reads [thread_key] only when [thread_type] is not
    "GROUP" and [is_group_thread] is falsy.  With one of these two marks
    the data is a group whatever [thread_key] holds, [None] included, and
    the parse goes on to the nicknames.  Without them a missing
    [thread_key] counts as no group, a [thread_key] that is a mapping
    decides by its [thread_fbid], and a [thread_key] that is present and no
    mapping, as [None] is, makes the test and the parse raise
    [AttributeError]. *)
Theorem thread_key_missing_or_none (d info : list (value * value)) (color : string) :
  field d "customization_info" = PDict info ->
  info <> [] ->
  _parse_color (field info "outgoing_bubble_color") = Ok color ->
  let marked :=
    py_eq (field d "thread_type") (PStr "GROUP") || truthy (field d "is_group_thread") in
  (marked = true ->
   is_group (PDict d) = Ok true /\
   (dict_lookup (PStr "participant_customizations") info = None ->
    _parse_customization_info (PDict d)
    = Ok (base_customization info color ++ [("nicknames", PDict [])])%list)) /\
  (marked = false ->
   (dict_lookup (PStr "thread_key") d = None -> is_group (PDict d) = Ok false) /\
   (forall k : list (value * value),
       dict_lookup (PStr "thread_key") d = Some (PDict k) ->
       is_group (PDict d) = Ok (truthy (field k "thread_fbid"))) /\
   (forall v : value,
       dict_lookup (PStr "thread_key") d = Some v ->
       (forall k, v <> PDict k) ->
       is_group (PDict d) = Raise AttributeError /\
       _parse_customization_info (PDict d) = Raise AttributeError)).
Proof.
  intros I N C marked.
  assert (T : truthy (field d "customization_info") = true)
    by (rewrite I; destruct info; [ contradiction | reflexivity ]).
  assert (P : forall r : res bool,
             is_group (PDict d) = r ->
             _parse_customization_info (PDict d)
             = (group <~ r ;
                if group then
                  pcs <~ py_get (PDict info) "participant_customizations" (PList []) ;
                  ks <~ py_iter pcs ;
                  nicknames <~ nicknames_loop ks [] ;
                  Ok (setitem (base_customization info color) "nicknames"
                        (PDict nicknames))
                else
                  pcs <~ py_get (PDict info) "participant_customizations" PNone ;
                  if truthy pcs then
                    user_id <~ other_user_id (PDict d) ;
                    pc <~ getitem (PDict info) (PStr "participant_customizations") ;
                    rtn <~ store_nth_nickname 0 pc user_id (base_customization info color) ;
                    store_nth_nickname 1 pc user_id rtn
                  else Ok (base_customization info color))%res).
  { intros r <-. rewrite (parse_customization_start d T). cbv zeta.
    rewrite I, !py_get_field. res_step. rewrite C. now res_step. }
  split; intros M.
  - assert (G : is_group (PDict d) = Ok true).
    { apply is_group_marked. unfold marks_group. fold marked. now rewrite M. }
    split; [ exact G | ]. intros L. rewrite (P _ G). res_step.
    cbn [py_get]. now rewrite L.
  - apply orb_false_iff in M as [Ty G].
    assert (S : is_group (PDict d)
                = (key <~ py_get (PDict d) "thread_key" (PDict []) ;
                   fbid <~ py_get key "thread_fbid" PNone ;
                   Ok (truthy fbid))%res).
    { unfold is_group. rewrite py_get_field. res_step. rewrite Ty.
      rewrite py_get_field. res_step. now rewrite G. }
    split; [ | split ].
    + intros L. rewrite S. cbn [py_get]. now rewrite L.
    + intros k L. rewrite S. cbn [py_get]. rewrite L. res_step.
      now rewrite py_get_field.
    + intros v L Nd.
      assert (R : is_group (PDict d) = Raise AttributeError).
      { rewrite S. cbn [py_get]. rewrite L. res_step.
        destruct v as [ | b | n | s | l | k]; try reflexivity.
        now destruct (Nd k). }
      split; [ exact R | ]. now rewrite (P _ R).
Qed.

(** ** The participants of a thread *)

Lemma participants_step (s : session_ref) (data node : value) (a : value * value)
  (nodes : list value) (w : world) :
  actor_of node a ->
  participants_loop s data (node :: nodes) w
  = let w1 := with_participants s data [a] w in
    let '((ys, e), w2) := participants_loop s data nodes w1 in
    ((match participant_class (fst a) with
      | Some _ => [length (heap w)]
      | None => []
      end ++ ys)%list, e, w2).
Proof.
  intros [actor [A [T I]]]. cbn [participants_loop].
  rewrite gen_bind_lift. rewrite A. res_step. rewrite T. res_step. rewrite I.
  res_step. cbn [fst snd]. unfold with_participants, participants, unknown_types.
  cbn [flat_map]. unfold participant_class.
  destruct (py_eq (fst a) (PStr "User")) eqn:U.
  { unfold gen_bind, construct, sibling_init, new, yield. cbn [app].
    rewrite !app_nil_r.
    now destruct (participants_loop s data nodes _) as [[ys e] w2]. }
  destruct (py_eq (fst a) (PStr "MessageThread")) eqn:M.
  { unfold gen_bind, construct, sibling_init, new, yield. cbn [app].
    rewrite !app_nil_r.
    now destruct (participants_loop s data nodes _) as [[ys e] w2]. }
  destruct (py_eq (fst a) (PStr "Page")) eqn:P.
  { unfold gen_bind, construct, sibling_init, new, yield. cbn [app].
    rewrite !app_nil_r.
    now destruct (participants_loop s data nodes _) as [[ys e] w2]. }
  destruct (py_eq (fst a) (PStr "Group")) eqn:G.
  { cbn [app]. rewrite !app_nil_r.
    replace (mk_world (heap w) (answers w) (calls w) (warnings w)) with w
      by now destruct w.
    now destruct (participants_loop s data nodes w) as [[ys e] w2]. }
  unfold gen_bind, log_warning. cbn [app]. rewrite !app_nil_r.
  now destruct (participants_loop s data nodes _) as [[ys e] w2].
Qed.

Lemma with_participants_app (s : session_ref) (data : value)
  (a : value * value) (actors : list (value * value)) (w : world) :
  with_participants s data actors (with_participants s data [a] w)
  = with_participants s data (a :: actors) w.
Proof.
  unfold with_participants, participants, unknown_types.
  cbn [heap answers calls warnings flat_map]. rewrite !app_nil_r.
  now rewrite <- !app_assoc.
Qed.

(** Going through well-formed nodes, then on with the rest. *)
Lemma participants_loop_app (s : session_ref) (data : value) (tail : list value)
  (nodes : list value) (actors : list (value * value)) :
  Forall2 actor_of nodes actors ->
  forall w,
    participants_loop s data (nodes ++ tail) w
    = let w1 := with_participants s data actors w in
      let '((ys, e), w2) := participants_loop s data tail w1 in
      ((seq (length (heap w)) (length (participants s actors)) ++ ys)%list, e, w2).
Proof.
  induction 1 as [ | node a nodes actors A _ IH]; intros w; cbv zeta.
  - cbn [app]. unfold with_participants, participants, unknown_types.
    cbn [flat_map length seq app]. rewrite !app_nil_r.
    replace (mk_world (heap w) (answers w) (calls w) (warnings w)) with w
      by now destruct w.
    now destruct (participants_loop s data tail w) as [[ys e] w2].
  - cbn [app]. rewrite (participants_step s data node a (nodes ++ tail)%list w A). cbv zeta.
    rewrite IH. cbv zeta. rewrite with_participants_app.
    destruct (participants_loop s data tail _) as [[ys e] w2].
    f_equal. f_equal.
    unfold participants at 2. cbn [flat_map].
    unfold with_participants, participants. cbn [heap flat_map].
    rewrite app_nil_r.
    destruct (participant_class (fst a)); cbn [app length seq].
    + rewrite length_app. cbn [length]. now rewrite Nat.add_1_r.
    + now rewrite app_nil_r.
Qed.

(** X12: for nodes that each hold an actor with a type and an id,
    [_parse_participants] yields one new object for each actor of the type
    "User", "MessageThread" or "Page", in the order of the nodes, of the
    class [User], [Group] or [Page], with the given session and [str] of
    the actor's id; it passes over the actors of the type "Group", logs one
    warning for each other type, and makes no call to the session. *)
Theorem parse_participants_spec (s : session_ref) (data ns : value)
  (nodes : list value) (actors : list (value * value)) (w : world) :
  getitem data (PStr "nodes") = Ok ns ->
  py_iter ns = Ok nodes ->
  Forall2 actor_of nodes actors ->
  _parse_participants s data w
  = ((seq (length (heap w)) (length (participants s actors)), Exhausted),
     with_participants s data actors w).
Proof.
  intros N I A. unfold _parse_participants. rewrite gen_bind_lift.
  rewrite N. res_step. rewrite I. res_step.
  rewrite <- (app_nil_r nodes). rewrite (participants_loop_app s data [] nodes actors A).
  cbv zeta. cbn [participants_loop stop]. unfold stop. now rewrite app_nil_r.
Qed.

(** X13: [_parse_participants] is lazy about a node it cannot read: the
    objects for the nodes before it are made and yielded, and only then is
    the exception raised; the nodes after it are not looked at. *)
Theorem parse_participants_stops (s : session_ref) (data ns bad : value)
  (good rest : list value) (actors : list (value * value)) (e : exn) (w : world) :
  getitem data (PStr "nodes") = Ok ns ->
  py_iter ns = Ok (good ++ bad :: rest)%list ->
  Forall2 actor_of good actors ->
  getitem bad (PStr "messaging_actor") = Raise e ->
  _parse_participants s data w
  = ((seq (length (heap w)) (length (participants s actors)), Raised e),
     with_participants s data actors w).
Proof.
  intros N I A B. unfold _parse_participants. rewrite gen_bind_lift.
  rewrite N. res_step. rewrite I. res_step.
  rewrite (participants_loop_app s data (bad :: rest) good actors A).
  cbv zeta. cbn [participants_loop]. rewrite gen_bind_lift, B. res_step.
  now rewrite app_nil_r.
Qed.

(** ** Shared media without an end *)

Lemma called_length (c : call) (w : world) :
  length (calls (called c w)) = S (length (calls w)).
Proof. unfold called. cbn [calls]. now rewrite length_app, Nat.add_1_r. Qed.

Lemma loop_runs_on (self : addr) (o : thread_obj) (fuel : nat) :
  forall (data : strdict) (j : value) (info : list (value * value)) (w : world),
    nth_error (heap w) self = Some o ->
    endless (id o) (answers w) ->
    holds j (id o) [] info ->
    truthy (field info "has_next_page") = true ->
    fst (fetch_images_loop fuel self data j w) = ([], OutOfFuel) /\
    length (calls (snd (fetch_images_loop fuel self data j w)))
    = length (calls w) + fuel.
Proof.
  induction fuel as [ | fuel IH]; intros data j info w H E P T;
    cbn [fetch_images_loop].
  - cbn. now rewrite Nat.add_0_r.
  - destruct (E (length (calls w))) as [r [j' [info' [A [U [P' T']]]]]].
    unfold gen_bind. rewrite (pass_continues data H P T A U). res_step.
    destruct (IH (setitem data "after" (field info "end_cursor")) j' info'
                (called (Session (session o)
                           (images_query
                              (setitem data "after" (field info "end_cursor")))) w)
                H E P' T') as [F L].
    split; [ exact F | ]. rewrite L, called_length. lia.
Qed.

(** X14: [fetch_images] has no bound of its own on the pages it asks for.
    Against a service that answers every request with a page without edges
    that announces a next page, the generator yields nothing and never
    ends: whatever the fuel, it is used up, one request for each unit and
    one to start. *)
Theorem fetch_images_runs_on (self : addr) (o : thread_obj) (w : world) (fuel : nat) :
  nth_error (heap w) self = Some o ->
  endless (id o) (answers w) ->
  fst (fetch_images fuel self w) = ([], OutOfFuel) /\
  length (calls (snd (fetch_images fuel self w))) = length (calls w) + S fuel.
Proof.
  intros H E. destruct (E (length (calls w))) as [r [j [info [A [U [P T]]]]]].
  unfold fetch_images. glive H. rewrite A. glive H. rewrite gen_bind_lift.
  known U. rewrite gen_bind_ret. cbn [fst snd].
  destruct (loop_runs_on self o fuel [("id", PStr (id o)); ("first", PInt 48)] j info
              (called (Session (session o)
                         (images_query [("id", PStr (id o)); ("first", PInt 48)])) w)
              H E P T) as [F L].
  split; [ exact F | ]. rewrite L, called_length. lia.
Qed.

(** X15: only the end of the edges is handled in the loop of
    [fetch_images].  When the answer is a mapping without an entry for the
    thread's id, the generator raises [KeyError] before it yields anything,
    and asks for no further page. *)
Theorem fetch_images_unknown_thread (self : addr) (o : thread_obj) (r : value)
  (d : list (value * value)) (w : world) (fuel : nat) :
  nth_error (heap w) self = Some o ->
  answers w (length (calls w)) = Returns r ->
  unpack1 r = Ok (PDict d) ->
  dict_lookup (PStr (id o)) d = None ->
  fetch_images (S fuel) self w
  = (([], Raised KeyError),
     called (Session (session o)
               (images_query [("id", PStr (id o)); ("first", PInt 48)])) w).
Proof.
  intros H A U L. unfold fetch_images. glive H. rewrite A. glive H.
  rewrite gen_bind_lift. known U. rewrite gen_bind_ret. cbn [fst snd].
  cbn [fetch_images_loop]. unfold gen_bind at 1. unfold fetch_images_pass.
  live H. unfold shared_media. cbn [getitem hashable]. rewrite L.
  now res_step.
Qed.

(** ** Searches that fail *)

Lemma yield_each_until {A} {f : value -> res A} {good : list value} {ys : list A}
  (bad : value) (rest : list value) (e : exn) (w : world) :
  Forall2 (fun x y => f x = Ok y) good ys ->
  f bad = Raise e ->
  yield_each f (good ++ bad :: rest) w = ((ys, Raised e), w).
Proof.
  intros G B. induction G as [ | x y good ys E _ IH]; cbn [app yield_each].
  - rewrite gen_bind_lift, B. now res_step.
  - rewrite gen_bind_lift, E. unfold Ok, yield. now rewrite IH.
Qed.

(** X16: [search_messages] yields as it goes: when a snippet of the entry
    has no [message_id] that can be read, the ids of the snippets before it
    have been yielded and the exception ends the generator; the snippets
    after it are not looked at. *)
Theorem search_messages_stops (self : addr) (o : thread_obj) (query : string)
  (offset limit : Z) (j entry bad : value) (result : list (value * value))
  (good rest ids : list value) (e : exn) (w : world) :
  nth_error (heap w) self = Some o ->
  answers w (length (calls w)) = Returns j ->
  (s <~ getitem j (PStr "search_snippets") ; getitem s (PStr query))%res
  = Ok (PDict result) ->
  dict_lookup (PStr (id o)) result = Some entry ->
  truthy entry = true ->
  getitem entry (PStr "snippets") = Ok (PList (good ++ bad :: rest)) ->
  Forall2 (fun snippet mid => getitem snippet (PStr "message_id") = Ok mid) good ids ->
  getitem bad (PStr "message_id") = Raise e ->
  fst (search_messages self query offset limit w) = (ids, Raised e).
Proof.
  intros H A R L T S G B. unfold search_messages. glive H. rewrite A. glive H.
  rewrite gen_bind_lift. known R. glive H. rewrite gen_bind_lift.
  cbn [py_get]. rewrite L. res_step. rewrite T. glive H.
  rewrite gen_bind_lift. cbn [getitem hashable]. rewrite L. res_step.
  known S. glive H. rewrite gen_bind_lift. cbn [py_iter]. res_step.
  now rewrite (yield_each_until bad rest e _ G B).
Qed.

(** X17: [search_messages] expects the answer to hold the result under
    [search_snippets] and then under the query itself.  When the answer is
    a mapping without [search_snippets], or its [search_snippets] is a
    mapping without the query, the generator raises [KeyError] and yields
    nothing, the request being made. *)
Theorem search_messages_no_result (self : addr) (o : thread_obj) (query : string)
  (offset limit : Z) (j : list (value * value)) (w : world) :
  nth_error (heap w) self = Some o ->
  answers w (length (calls w)) = Returns (PDict j) ->
  dict_lookup (PStr "search_snippets") j = None \/
  (exists s,
      dict_lookup (PStr "search_snippets") j = Some (PDict s) /\
      dict_lookup (PStr query) s = None) ->
  search_messages self query offset limit w
  = (([], Raised KeyError),
     called
       (Session (session o)
          (_payload_post search_snippets
             [ ("query", PStr query);
               ("snippetOffset", PInt offset);
               ("snippetLimit", PInt limit);
               ("identifier", PStr "thread_fbid");
               ("thread_fbid", PStr (id o)) ]))
       w).
Proof.
  intros H A M. unfold search_messages. glive H. rewrite A. glive H.
  rewrite gen_bind_lift. cbn [getitem hashable].
  destruct M as [M | [s [M Q]]]; rewrite M; res_step; [ reflexivity | ].
  cbn [getitem hashable]. now rewrite Q.
Qed.

End ThreadModule.

(** * Examples *)

(** A green thread: the payload carries the color itself. *)
Lemma set_color_spec_witness :
  nth_error (heap (sample_world [PNone])) 1 = Some sample_user /\
  In "#13cf13" SETABLE_COLORS /\
  calls (after (set_color 1 "#13cf13") (sample_world [PNone]))
  = [Session 7
       (_payload_post save_thread_color
          [("color_choice", PStr "#13cf13"); ("thread_or_other_fbid", PStr "5678")])].
Proof.
  assert (I : In "#13cf13" SETABLE_COLORS) by (cbn; tauto).
  split; [ reflexivity | split; [ exact I | ] ].
  exact (proj2 (proj2 (set_color_spec 1 "#13cf13" (sample_world [PNone])))
           sample_user eq_refl I).
Defined.

(** The constructor takes the empty string as an id. *)
Lemma Thread_accepts_empty_id :
  exists o,
    nth_error (heap (after (Thread_init 7 (PStr "")) (sample_world []))) 2 = Some o /\
    id o = "".
Proof. exists (mk_thread ClsThread 7 ""). now split. Qed.

(** [set_color] leaves the id of the user at 1 as it was. *)
Lemma thread_id_invariant_witness :
  exists o',
    nth_error
      (heap (run epoch_millis whole_seconds file_key unit no_mention_data unit size_name
               addressed (op_set_color unit unit "#13cf13") 1 (sample_world [PNone]))) 1
    = Some o' /\
    id o' = "5678".
Proof.
  exact (proj2 (thread_id_invariant epoch_millis whole_seconds file_key unit
                  no_mention_data unit size_name addressed)
           (op_set_color unit unit "#13cf13") 1 1 sample_user (sample_world [PNone])
           eq_refl).
Defined.

(** The poll of the docstring. *)
Lemma create_poll_spec_witness :
  nth_error (heap (sample_world [PNone])) 1 = Some sample_user /\
  calls (after (create_poll 1 "Test poll" [("Option 1", true); ("Option 2", false)])
           (sample_world [PNone]))
  = [Session 7
       (_payload_post create_poll_url
          [ ("question_text", PStr "Test poll");
            ("target_id", PStr "5678");
            ("option_text_array[0]", PStr "Option 1");
            ("option_is_selected_array[0]", PStr "1");
            ("option_text_array[1]", PStr "Option 2");
            ("option_is_selected_array[1]", PStr "0") ])].
Proof.
  split; [ reflexivity | ].
  exact (proj1 (create_poll_spec 1 sample_user "Test poll"
                  [("Option 1", true); ("Option 2", false)] (sample_world [PNone])
                  eq_refl)).
Defined.

(** Two pages of shared media: three attachments and two requests. *)
Lemma fetch_images_spec_witness :
  nth_error (heap media_world) 1 = Some sample_user /\
  fst (fetch_images 6 1 media_world)
  = ([ ImageAttachment_from_list image_edge;
       VideoAttachment_from_list video_edge;
       Attachment (PStr "99") ], Exhausted) /\
  calls (snd (fetch_images 6 1 media_world))
  = [ Session 7
        (_graphql_requests
           (from_query_id "515216185516880" [("id", PStr "5678"); ("first", PInt 48)]));
      Session 7
        (_graphql_requests
           (from_query_id "515216185516880"
              [("id", PStr "5678"); ("first", PInt 48); ("after", PStr "c1")])) ].
Proof.
  split; [ reflexivity | ].
  assert (E : fetch_images 6 1 media_world
              = (([ ImageAttachment_from_list image_edge;
                    VideoAttachment_from_list video_edge;
                    Attachment (PStr "99") ], Exhausted),
                 mk_world (heap media_world) (answers media_world)
                   (calls media_world ++
                    Session 7
                      (_graphql_requests
                         (from_query_id "515216185516880"
                            [("id", PStr "5678"); ("first", PInt 48)]))
                      :: follow_ups 7 "5678" first_info [([file_edge], last_info)])
                   (warnings media_world))).
  { apply (proj2 (proj2 (proj2 (fetch_images_spec 1 sample_user media_world eq_refl)))
             6 (media_response [image_edge; video_edge] first_info)
             (PDict
                [(PStr "5678",
                  PDict
                    [(PStr "message_shared_media",
                      PDict [ (PStr "edges", PList [image_edge; video_edge]);
                              (PStr "page_info", PDict first_info) ])])])
             [image_edge; video_edge] first_info [([file_edge], last_info)]).
    - reflexivity.
    - reflexivity.
    - eexists. repeat split; reflexivity.
    - split; [ reflexivity | ].
      do 2 eexists. repeat split; try reflexivity.
      eexists. repeat split; reflexivity.
    - repeat constructor.
    - cbn. lia. }
  rewrite E. split; reflexivity.
Defined.

(** The customization of a group. *)
Lemma parse_customization_info_spec_witness :
  _parse_customization_info (PDict group_fields)
  = Ok [ ("emoji", PStr ":)");
         ("color", PStr "#44bec7");
         ("nicknames", PDict [(PStr "1", PStr "Al"); (PStr "2", PStr "Bo")]) ].
Proof.
  eapply proj1.
  eapply (proj1 (proj2 (proj2 (proj2 parse_customization_info_spec)))
            group_fields group_info "#44bec7" _ _
            [(PStr "1", PStr "Al"); (PStr "2", PStr "Bo")] eq_refl).
  - discriminate.
  - reflexivity.
  - reflexivity.
  - reflexivity.
  - reflexivity.
  - repeat constructor.
Defined.

(** [fetch_messages] on the user at 1 makes a second user at 2. *)
Lemma operations_do_not_mutate_witness :
  nth_error (heap (sample_world [messages_response])) 1 = Some sample_user /\
  fst (fetch_messages epoch_millis 1 20 None (sample_world [messages_response]))
  = Ok [ MessageData_from_graphql 2 (PStr "second") (PList []);
         MessageData_from_graphql 2 (PStr "first") (PList []) ] /\
  heap (after (fetch_messages epoch_millis 1 20 None) (sample_world [messages_response]))
  = [sample_thread; sample_user; sample_user].
Proof.
  split; [ reflexivity | ].
  eapply (proj2 (operations_do_not_mutate epoch_millis whole_seconds file_key unit
                  no_mention_data unit size_name addressed 1 sample_user
                  (sample_world [messages_response]) eq_refl)
           20%Z None messages_response _ _ (PList []) [PStr "first"; PStr "second"]);
    reflexivity.
Defined.

(** Muting the user at 1 for an hour and a half. *)
Lemma mute_spec_witness :
  nth_error (heap (sample_world [PNone])) 1 = Some sample_user /\
  whole_seconds (mk_timedelta 0 0 0) = 0%Z /\
  calls (after (mute whole_seconds 1 (Some (mk_timedelta 0 5400 0))) (sample_world [PNone]))
  = [Session 7 (_payload_post change_mute_thread (mute_payload "5400" "5678"))] /\
  calls (after (unmute whole_seconds 1) (sample_world [PNone]))
  = [Session 7 (_payload_post change_mute_thread (mute_payload "0" "5678"))].
Proof.
  split; [ reflexivity | split; [ reflexivity | ] ].
  pose proof (mute_spec whole_seconds 1 sample_user (sample_world [PNone])
                eq_refl) as [_ [D [_ U]]].
  split; [ exact (D (mk_timedelta 0 5400 0)) | exact (U eq_refl) ].
Defined.

(** Waving at the raw thread at 0 reaches no session. *)
Lemma raw_thread_cannot_send_witness :
  nth_error (heap (sample_world [PNone])) 0 = Some sample_thread /\
  cls sample_thread = ClsThread /\
  wave addressed 0 true (sample_world [PNone])
  = (Raise NotImplementedError, sample_world [PNone]).
Proof.
  split; [ reflexivity | split; [ reflexivity | ] ].
  exact (proj1 (raw_thread_cannot_send file_key unit no_mention_data unit size_name
                  addressed 0 sample_thread (sample_world [PNone]) eq_refl eq_refl)
           true).
Defined.

(** A search with two snippets for the thread. *)
Lemma search_messages_spec_witness :
  nth_error (heap (sample_world [search_response])) 1 = Some sample_user /\
  fst (search_messages 1 "hello" 0 5 (sample_world [search_response]))
  = ([PStr "m1"; PStr "m2"], Exhausted).
Proof.
  split; [ reflexivity | ].
  eapply (proj2 (proj2 (proj2 (search_messages_spec 1 sample_user "hello" 0 5
                                 (sample_world [search_response]) eq_refl)
                          search_response _ eq_refl eq_refl))
           _ [ PDict [(PStr "message_id", PStr "m1")];
               PDict [(PStr "message_id", PStr "m2")] ]).
  - reflexivity.
  - reflexivity.
  - reflexivity.
  - repeat constructor.
Defined.

(** * Further examples *)

(** An error report as answer does not stop [set_emoji]. *)
Lemma setters_forget_the_answer_witness :
  nth_error (heap (sample_world [failure_response])) 1 = Some sample_user /\
  set_emoji 1 ":)" (sample_world [failure_response])
  = (Ok tt,
     called
       (Session 7
          (_payload_post "/messaging/save_thread_emoji/?source=thread_settings&dpr=1"
             [("emoji_choice", PStr ":)"); ("thread_or_other_fbid", PStr "5678")]))
       (sample_world [failure_response])).
Proof.
  split; [ reflexivity | ].
  exact (proj1 (proj2 (setters_forget_the_answer whole_seconds 1 sample_user))
           ":)" (sample_world [failure_response]) eq_refl).
Defined.

(** A forward that the service refuses. *)
Lemma forward_attachment_spec_witness :
  nth_error (heap (sample_world [PStr "6543"; failure_response])) 1 = Some sample_user /\
  fst (forward_attachment 1 (PStr "a1") (sample_world [PStr "6543"; failure_response]))
  = Raise (FBchatFacebookError (PStr "Not allowed")) /\
  calls (snd (forward_attachment 1 (PStr "a1")
                (sample_world [PStr "6543"; failure_response])))
  = [ generate_offline_threading_id;
      Session 7
        (_payload_post "/mercury/attachments/forward/"
           [("attachment_id", PStr "a1"); ("recipient_map[6543]", PStr "5678")]) ].
Proof.
  split; [ reflexivity | ].
  rewrite (forward_attachment_spec 1 sample_user (PStr "a1") (PStr "6543")
             [(PStr "success", PBool false); (PStr "error", PStr "Not allowed")]
             (sample_world [PStr "6543"; failure_response]) eq_refl eq_refl eq_refl).
  split; reflexivity.
Defined.

(** An answer without [message_thread]. *)
Lemma fetch_messages_missing_thread_witness :
  nth_error (heap (sample_world [PList [PDict []]])) 1 = Some sample_user /\
  fst (fetch_messages epoch_millis 1 20 None (sample_world [PList [PDict []]]))
  = Raise FBchatException /\
  heap (snd (fetch_messages epoch_millis 1 20 None (sample_world [PList [PDict []]])))
  = [sample_thread; sample_user].
Proof.
  split; [ reflexivity | ].
  pose proof (fetch_messages_missing_thread epoch_millis 1 sample_user 20 None
                (PList [PDict []]) [] (sample_world [PList [PDict []]])
                eq_refl eq_refl eq_refl) as [E _].
  rewrite (E eq_refl). split; reflexivity.
Defined.

(** One message found. *)
Lemma forced_fetch_spec_witness :
  nth_error (heap (sample_world [PList [PStr "found"]])) 1 = Some sample_user /\
  fst (_forced_fetch 1 "mid.1" (sample_world [PList [PStr "found"]])) = Ok (PStr "found").
Proof.
  split; [ reflexivity | ].
  now rewrite (forced_fetch_spec 1 sample_user "mid.1" [PStr "found"]
                 (sample_world [PList [PStr "found"]]) eq_refl eq_refl).
Defined.

(** A sticker for the user at 1. *)
Lemma send_methods_post_witness :
  nth_error (heap (sample_world [PNone])) 1 = Some sample_user /\
  sends (send_sticker addressed 1 "369239263222822") 7 (addressed ClsUser "5678")
    (sample_world [PNone])
    (fun data => lookup data "sticker_id" = Some (PStr "369239263222822")).
Proof.
  split; [ reflexivity | ].
  assert (N : cls sample_user <> ClsThread) by discriminate.
  exact (proj1 (proj2 (proj2 (send_methods_post unit size_name addressed 1 sample_user
                                (sample_world [PNone]) eq_refl N)))
           "369239263222822").
Defined.

(** A wave that the session answers with a message id and a thread id. *)
Lemma wave_returns_message_id_witness :
  nth_error (heap (sample_world [PList [PStr "mid.1"; PStr "5678"]])) 1
  = Some sample_user /\
  fst (wave addressed 1 true (sample_world [PList [PStr "mid.1"; PStr "5678"]]))
  = Ok (PStr "mid.1").
Proof.
  split; [ reflexivity | ].
  assert (N : cls sample_user <> ClsThread) by discriminate.
  exact (wave_returns_message_id addressed 1 sample_user true
           [PStr "mid.1"; PStr "5678"]
           (sample_world [PList [PStr "mid.1"; PStr "5678"]]) eq_refl N eq_refl).
Defined.


(** A group whose customizations are [None] cannot be parsed. *)
Lemma customizations_missing_or_none_witness :
  _parse_customization_info (PDict bare_group_fields) = Raise TypeError.
Proof.
  assert (N : [ (PStr "emoji", PStr ":)");
                (PStr "outgoing_bubble_color", PStr "FF44BEC7");
                (PStr "participant_customizations", PNone) ] <> []) by discriminate.
  exact (proj2 (customizations_missing_or_none bare_group_fields _ "#44bec7" true
                  eq_refl N eq_refl eq_refl)
           eq_refl).
Defined.

(** A thread key that is [None] cannot be parsed, unless the data is
    marked as a group before the key is read. *)
Lemma thread_key_missing_or_none_witness :
  _parse_customization_info (PDict keyless_fields) = Raise AttributeError /\
  _parse_customization_info (PDict ((PStr "is_group_thread", PBool true) :: keyless_fields))
  = Ok [("emoji", PStr ":)"); ("color", PStr "#0084ff"); ("nicknames", PDict [])].
Proof.
  assert (N : [(PStr "emoji", PStr ":)")] <> []) by discriminate.
  split.
  - apply (proj2 (proj2 (proj2 (thread_key_missing_or_none keyless_fields _ DEFAULT_COLOR
                                  eq_refl N eq_refl)
                           eq_refl))
             PNone eq_refl).
    intros k. discriminate.
  - exact (proj2 (proj1 (thread_key_missing_or_none
                           ((PStr "is_group_thread", PBool true) :: keyless_fields)
                           _ DEFAULT_COLOR eq_refl N eq_refl)
                    eq_refl)
             eq_refl).
Defined.

(** Five actors: three objects, one warning. *)
Lemma parse_participants_spec_witness :
  fst (_parse_participants 7 all_participants (sample_world [])) = ([2; 3; 4], Exhausted) /\
  heap (snd (_parse_participants 7 all_participants (sample_world [])))
  = [ sample_thread; sample_user;
      mk_thread ClsUser 7 "1"; mk_thread ClsGroup 7 "3"; mk_thread ClsPage 7 "4" ] /\
  warnings (snd (_parse_participants 7 all_participants (sample_world [])))
  = [(PStr "Bot", all_participants)].
Proof.
  assert (A : Forall2 actor_of
                [ actor_node "User" "1"; actor_node "Group" "2";
                  actor_node "MessageThread" "3"; actor_node "Page" "4";
                  actor_node "Bot" "5" ]
                [ (PStr "User", PStr "1"); (PStr "Group", PStr "2");
                  (PStr "MessageThread", PStr "3"); (PStr "Page", PStr "4");
                  (PStr "Bot", PStr "5") ]).
  { repeat (apply Forall2_cons; [ eexists; repeat split; reflexivity | ]).
    apply Forall2_nil. }
  rewrite (parse_participants_spec 7 all_participants _ _ _ (sample_world [])
             eq_refl eq_refl A).
  repeat split; reflexivity.
Defined.

(** The user before the broken node is made, the page after it is not. *)
Lemma parse_participants_stops_witness :
  fst (_parse_participants 7 broken_participants (sample_world []))
  = ([2], Raised KeyError) /\
  heap (snd (_parse_participants 7 broken_participants (sample_world [])))
  = [sample_thread; sample_user; mk_thread ClsUser 7 "1"].
Proof.
  assert (A : Forall2 actor_of [actor_node "User" "1"] [(PStr "User", PStr "1")]).
  { apply Forall2_cons; [ eexists; repeat split; reflexivity | apply Forall2_nil ]. }
  rewrite (parse_participants_stops 7 broken_participants _ (PDict [])
             [actor_node "User" "1"] [actor_node "Page" "4"] _ KeyError (sample_world [])
             eq_refl eq_refl A eq_refl).
  split; reflexivity.
Defined.

(** A hundred passes, a hundred and one requests, no attachment. *)
Lemma fetch_images_runs_on_witness :
  nth_error (heap stuck_world) 1 = Some sample_user /\
  fst (fetch_images 100 1 stuck_world) = ([], OutOfFuel) /\
  length (calls (snd (fetch_images 100 1 stuck_world))) = 101.
Proof.
  split; [ reflexivity | ].
  assert (E : endless "5678" (answers stuck_world)).
  { intros n. exists (media_response [] first_info).
    eexists. exists first_info.
    split; [ reflexivity | split; [ reflexivity | split; [ | reflexivity ] ] ].
    eexists. repeat split; reflexivity. }
  exact (fetch_images_runs_on 1 sample_user stuck_world 100 eq_refl E).
Defined.

(** An answer that does not know the thread. *)
Lemma fetch_images_unknown_thread_witness :
  nth_error (heap (sample_world [PList [PDict []]])) 1 = Some sample_user /\
  fst (fetch_images 1 1 (sample_world [PList [PDict []]])) = ([], Raised KeyError).
Proof.
  split; [ reflexivity | ].
  now rewrite (fetch_images_unknown_thread 1 sample_user (PList [PDict []]) []
                 (sample_world [PList [PDict []]]) 0 eq_refl eq_refl eq_refl eq_refl).
Defined.

(** The first id is yielded, the third is never reached. *)
Lemma search_messages_stops_witness :
  nth_error (heap (sample_world [broken_search_response])) 1 = Some sample_user /\
  fst (search_messages 1 "hello" 0 5 (sample_world [broken_search_response]))
  = ([PStr "m1"], Raised KeyError).
Proof.
  split; [ reflexivity | ].
  assert (G : Forall2
                (fun snippet mid => getitem snippet (PStr "message_id") = Ok mid)
                [PDict [(PStr "message_id", PStr "m1")]] [PStr "m1"]).
  { apply Forall2_cons; [ reflexivity | apply Forall2_nil ]. }
  exact (search_messages_stops 1 sample_user "hello" 0 5 broken_search_response _
           (PDict []) _ [PDict [(PStr "message_id", PStr "m1")]]
           [PDict [(PStr "message_id", PStr "m3")]] [PStr "m1"] KeyError
           (sample_world [broken_search_response])
           eq_refl eq_refl eq_refl eq_refl eq_refl eq_refl G eq_refl).
Defined.

(** An empty answer to a search. *)
Lemma search_messages_no_result_witness :
  nth_error (heap (sample_world [PDict []])) 1 = Some sample_user /\
  fst (search_messages 1 "hello" 0 5 (sample_world [PDict []])) = ([], Raised KeyError).
Proof.
  split; [ reflexivity | ].
  now rewrite (search_messages_no_result 1 sample_user "hello" 0 5 []
                 (sample_world [PDict []]) eq_refl eq_refl (or_introl eq_refl)).
Defined.
